(** * Label generation of the HiRID ICU benchmark

    A shallow embedding of [icu_benchmarks/labels/label_benchmark.py]:
    [is_df_sorted], [gen_label] (the patient label assembler) and
    [label_gen_benchmark] (the batch driver), with the properties the
    design document states about them.

    Conventions of the embedding.
    - A float64 cell is a [val]: the not-a-number sentinel [NaN] ("unknown")
      or an exact rational [Num q]; arithmetic is carried out on rationals.
    - A Python exception is a constructor of [exn]; code that can raise
      returns a [result].
    - Data frames are typed by the table schemas of the benchmark (one record
      per row), so a column access by name cannot fail.
    - [gen_label] receives references to two frame objects; they live in a
      [heap] that the embedding threads through the call. *)

From Stdlib Require Import ZArith QArith Qround List String Bool Arith Lia.
From Stdlib Require Import Sorting.Sorted Sorting.Permutation.
From Stdlib Require Floats Uint63.
Import ListNotations.

Set Implicit Arguments.

(* ------------------------------------------------------------------ *)
(** ** Values, exceptions, results *)

(** A float64 cell. *)
Inductive val : Type :=
| NaN : val
| Num (q : Q) : val.

Definition is_nan (v : val) : bool :=
  match v with NaN => true | Num _ => false end.

(** The Python exceptions that occur in the module. *)
Inductive exn : Type :=
| ValueError | TypeError | IndexError | KeyError | AssertionError
| LengthMismatch.

Inductive result (A : Type) : Type :=
| Ok (a : A)
| Raise (e : exn).
Arguments Ok {A} a.
Arguments Raise {A} e.

Definition rbind {A B} (r : result A) (k : A -> result B) : result B :=
  match r with Ok a => k a | Raise e => Raise e end.

(* ------------------------------------------------------------------ *)
(** ** numpy.linspace

    [np.linspace(start, stop, num)] with the default [endpoint=True]:
    [num] samples [start + i * step], [step = (stop - start) / (num - 1)],
    the last one overwritten by [stop] when [num > 1]; for [num = 1] the
    single sample is [start] (numpy multiplies the index 0 by
    [stop - start] and adds [start]), for [num = 0] the array is empty. *)

Definition linspace_step (start stop : Q) (num : nat) : Q :=
  (stop - start) / inject_Z (Z.of_nat (num - 1)).

Definition linspace_at (start stop : Q) (num i : nat) : Q :=
  if (1 <? num)%nat && (i =? num - 1)%nat then stop
  else if (1 <? num)%nat
       then start + inject_Z (Z.of_nat i) * linspace_step start stop num
       else start.

Definition np_linspace (start stop : Q) (num : nat) : list Q :=
  map (linspace_at start stop num) (seq 0 num).

(** [np.linspace] as numpy computes it, in binary64 floating point: the
    samples are [i * step + start] with [step = (stop - start) / (num - 1)]
    rounded at every operation ([(i / (num - 1)) * (stop - start) + start]
    when the step rounds to zero), the last one overwritten by [stop].
    Lengths are below [2 ^ 63]. *)
Definition f64_of_nat (n : nat) : PrimFloat.float :=
  PrimFloat.of_uint63 (Uint63.of_Z (Z.of_nat n)).

Definition np_linspace_f64 (start stop : PrimFloat.float) (num : nat)
    : list PrimFloat.float :=
  let delta := PrimFloat.sub stop start in
  let div := f64_of_nat (num - 1) in
  let step := PrimFloat.div delta div in
  map (fun i =>
         if (1 <? num)%nat && (i =? num - 1)%nat then stop
         else if (1 <? num)%nat then
           if PrimFloat.eqb step PrimFloat.zero
           then PrimFloat.add
                  (PrimFloat.mul (PrimFloat.div (f64_of_nat i) div) delta)
                  start
           else PrimFloat.add (PrimFloat.mul (f64_of_nat i) step) start
         else PrimFloat.add (PrimFloat.mul (f64_of_nat i) delta) start)
      (seq 0 num).

(* ------------------------------------------------------------------ *)
(** ** Tables

    Rows of the imputed table, of the endpoint table and of the static
    table.  Timestamps are instants counted in grid units ([Z]; a
    timestamp column holds no missing instant), patient identifiers are
    integers.  A timestamp is stored as a signed 64-bit integer, and the
    arithmetic pandas does on a timestamp column wraps around in that
    range ([wrap64]). *)

Record pat_row : Type := mk_pat_row {
  p_pid : Z;            (* PID *)
  p_datetime : Z;       (* absolute timestamp *)
  p_rel : val;          (* relative timestamp *)
  p_hr_cum : Z;         (* vm1_IMPUTED_STATUS_CUM_COUNT *)
  p_urine_cum : Z;      (* vm24_IMPUTED_STATUS_CUM_COUNT *)
  p_vm131 : val;        (* weight *)
  p_vm24 : val          (* urine *)
}.

Record endpoint_row : Type := mk_endpoint_row {
  e_pid : Z;
  e_datetime : Z;
  e_circ : val;         (* circ_failure_status *)
  e_resp : string       (* resp_failure_status *)
}.

(** A cell of the static table's discharge-status column. *)
Inductive pyval : Type :=
| PStr (s : string)
| PNan
| PNone.

(** [str(x)]. *)
Definition py_str (x : pyval) : string :=
  match x with
  | PStr s => s
  | PNan => "nan"
  | PNone => "None"
  end.

(** A cell of a severity-score column: a float, or [None] in an object
    column. *)
Inductive pynum : Type :=
| FVal (v : val)
| FNone.

Record static_row : Type := mk_static_row {
  s_pid : Z;
  s_discharge : pyval;   (* discharge_status *)
  s_apache2 : pynum;     (* APACHE II Group *)
  s_apache4 : pynum      (* APACHE IV Group *)
}.

(** The imputed frame of one patient.  Nothing in the module changes its
    index, so only the rows are kept. *)
Record pat_frame : Type := mk_pat_frame { pat_rows : list pat_row }.

(** An endpoint frame: its rows, and whether the timestamp column has been
    moved into the index by [set_index]. *)
Record endpoint_frame : Type := mk_endpoint_frame {
  ep_rows : list endpoint_row;
  ep_indexed : bool
}.

(** A column of an output table. *)
Inductive column : Type :=
| ColZ (xs : list Z)
| ColF (xs : list val).

Definition col_len (c : column) : nat :=
  match c with ColZ xs => List.length xs | ColF xs => List.length xs end.

(** A value stored in [output_df_dict]: a pandas Series taken from the
    imputed frame, or a numpy array. *)
Inductive dict_value : Type :=
| VSeries (c : column)
| VArray (a : list val).

Definition dict_value_column (v : dict_value) : column :=
  match v with VSeries c => c | VArray a => ColF a end.

(** A Python dict with string keys: insertion ordered, a later assignment
    to a present key replaces its value in place. *)
Definition pydict : Type := list (string * dict_value).

Fixpoint dict_set (d : pydict) (k : string) (v : dict_value) : pydict :=
  match d with
  | [] => [(k, v)]
  | (k', v') :: d' =>
      if String.eqb k' k then (k, v) :: d' else (k', v') :: dict_set d' k v
  end.

(** An output table: named columns of one common length. *)
Definition DataFrame : Type := list (string * column).

Fixpoint df_lookup (name : string) (t : DataFrame) : option column :=
  match t with
  | [] => None
  | (k, c) :: t' => if String.eqb k name then Some c else df_lookup name t'
  end.

Definition df_nrows (t : DataFrame) : nat :=
  match t with [] => 0%nat | (_, c) :: _ => col_len c end.

Definition is_series (v : dict_value) : bool :=
  match v with VSeries _ => true | VArray _ => false end.

(** The number of rows [pd.DataFrame(d)] gives the table: the length of
    the index of the Series in [d] (here they all come from one frame and
    share its index, so no alignment takes place), or, in a dict of arrays
    only, the length of the first array. *)
Definition index_length (d : pydict) : nat :=
  match find (fun kv => is_series (snd kv)) d with
  | Some kv => col_len (dict_value_column (snd kv))
  | None => match d with
            | [] => 0%nat
            | kv :: _ => col_len (dict_value_column (snd kv))
            end
  end.

(** [pd.DataFrame(d)]: every entry must have as many elements as the
    index, otherwise pandas raises [ValueError]. *)
Definition pd_DataFrame (d : pydict) : result DataFrame :=
  let n := index_length d in
  if forallb (fun kv => (col_len (dict_value_column (snd kv)) =? n)%nat) d
  then Ok (map (fun kv => (fst kv, dict_value_column (snd kv))) d)
  else Raise ValueError.

(* ------------------------------------------------------------------ *)
(** ** The collaborators that are not part of the module *)

(** A scalar handed to [unique_label_at_hours]: a Python bool, a float, or
    [None] (the default of [gen_label]'s keyword arguments). *)
Inductive scalar : Type :=
| SBool (b : bool)
| SVal (v : val)
| SNone.

(** A severity-group lookup table (a dict from integer code to bucket). *)
Definition apache_map : Type := list (Z * Z).

(** [icu_benchmarks.labels.utils]: the functions [gen_label] and
    [label_gen_benchmark] call. *)
Record Utils : Type := mk_Utils {
  get_hr_status : list Z -> list bool;
  convolve_hr : list val -> list bool -> result (list val);
  unique_label_at_hours : nat -> scalar -> Z -> list val;
  transition_to_failure : list val -> Z -> Z -> list val;
  get_any_resp_label : list string -> list val;
  future_urine_output :
    list val -> list Z -> list val -> Z -> list val * list val;
  merge_apache_groups : val -> val -> apache_map -> apache_map -> scalar
}.

(** [icu_benchmarks.common.constants]: the names of the label columns and
    the resolution of the time grid. *)
Record Constants : Type := mk_Constants {
  MORTALITY_NAME : string;
  CIRC_FAILURE_NAME : string;
  RESP_FAILURE_NAME : string;
  URINE_REG_NAME : string;
  URINE_BINARY_NAME : string;
  PHENOTYPING_NAME : string;
  LOS_NAME : string;
  STEPS_PER_HOUR : positive
}.

(** The entries of [configs] the module reads. *)
Record Configs : Type := mk_Configs {
  abs_datetime_key : string;
  rel_datetime_key : string;
  patient_id_key : string;
  APACHE_II_map : apache_map;
  APACHE_IV_map : apache_map;
  debug_mode : bool;
  verbose : bool
}.

(** The names of the columns of the output table, in order. *)
Definition column_names (K : Constants) (configs : Configs) : list string :=
  [ abs_datetime_key configs; rel_datetime_key configs; patient_id_key configs;
    MORTALITY_NAME K; CIRC_FAILURE_NAME K; RESP_FAILURE_NAME K;
    URINE_REG_NAME K; URINE_BINARY_NAME K; PHENOTYPING_NAME K; LOS_NAME K ].

(** What the module observes of the process it runs in: whether the root
    logger is enabled for INFO, and whether the batch file of the imputed
    table is (still) on disk when the loop tests it. *)
Record Runtime : Type := mk_Runtime {
  info_enabled : bool;
  patient_path_exists : bool
}.

(** [logging.info(msg, flush=True)].  [logging.info] hands its keyword
    arguments to [Logger._log] when the logger is enabled for INFO, and
    [_log] has no parameter [flush]: the call then raises [TypeError];
    when INFO is disabled nothing is evaluated. *)
Definition logging_info_flush (rt : Runtime) : result unit :=
  if info_enabled rt then Raise TypeError else Ok tt.

(* ------------------------------------------------------------------ *)
(** ** The heap of [gen_label] *)

Record heap : Type := mk_heap {
  df_pat : pat_frame;
  df_endpoint : endpoint_frame
}.

(** Computations that read and update the heap and may raise. *)
Definition M (A : Type) : Type := heap -> result A * heap.

Definition ret {A} (a : A) : M A := fun h => (Ok a, h).
Definition bind {A B} (m : M A) (k : A -> M B) : M B :=
  fun h => match m h with
           | (Ok a, h') => k a h'
           | (Raise e, h') => (Raise e, h')
           end.
Definition lift {A} (r : result A) : M A := fun h => (r, h).
Definition read {A} (f : heap -> A) : M A := fun h => (Ok (f h), h).

Declare Scope heap_scope.
Delimit Scope heap_scope with heap.
Notation "x <- m ;; k" := (bind m (fun x => k))
  (at level 61, m at next level, right associativity) : heap_scope.
Notation "m ;;; k" := (bind m (fun _ => k))
  (at level 61, right associativity) : heap_scope.

Fixpoint has_dup (l : list Z) : bool :=
  match l with
  | [] => false
  | x :: l' => existsb (Z.eqb x) l' || has_dup l'
  end.

(** [df_endpoint.set_index(keys=DATETIME, inplace=True,
    verify_integrity=True)]: [KeyError] when the frame has no timestamp
    column any more, [ValueError] when the new index would have duplicates
    (raised before the frame is touched); otherwise the object itself is
    re-indexed. *)
Definition set_index_datetime : M unit :=
  fun h =>
    let ep := df_endpoint h in
    if ep_indexed ep then (Raise KeyError, h)
    else if has_dup (map e_datetime (ep_rows ep)) then (Raise ValueError, h)
    else (Ok tt, mk_heap (df_pat h) (mk_endpoint_frame (ep_rows ep) true)).

(** [df_endpoint.index] once the frame is indexed by timestamp. *)
Definition endpoint_index : M (list Z) :=
  read (fun h => map e_datetime (ep_rows (df_endpoint h))).

Fixpoint all_eqb (a b : list Z) : bool :=
  match a, b with
  | [], [] => true
  | x :: a', y :: b' => Z.eqb x y && all_eqb a' b'
  | _, _ => false
  end.

(** [assert ((df_pat.datetime == df_endpoint.index).all())]: comparing a
    Series with an Index of another length raises [ValueError]; a pair of
    differing timestamps makes the assertion fail. *)
Definition assert_aligned (pat_times idx : list Z) : result unit :=
  if negb (List.length pat_times =? List.length idx)%nat then Raise ValueError
  else if all_eqb pat_times idx then Ok tt
  else Raise AssertionError.

(* ------------------------------------------------------------------ *)
(** ** Order of the endpoint rows *)

(** The value of an integer in signed 64-bit arithmetic. *)
Definition wrap64 (z : Z) : Z :=
  ((z + 2 ^ 63) mod 2 ^ 64 - 2 ^ 63)%Z.

(** The differences of consecutive elements: [Series.diff().dropna()] (the
    first entry of [diff()], which has no predecessor, is the one that
    [dropna()] removes).  The subtraction is that of 64-bit integers and
    wraps around.  In a column of dtype datetime64 a difference that wraps
    to exactly [- 2 ^ 63] would read as a missing value and be dropped as
    well; no such difference occurs between timestamps in range
    ([timestamps_in_range] below), on which the statements about the test
    rely. *)
Fixpoint diffs (l : list Z) : list Z :=
  match l with
  | x :: (y :: _) as t => wrap64 (y - x) :: diffs t
  | _ => []
  end.

(** [is_df_sorted(df, DATETIME)] on the rows of an endpoint frame. *)
Definition is_df_sorted (rows : list endpoint_row) : bool :=
  forallb (fun d => (0 <=? d)%Z) (diffs (map e_datetime rows)).

(** Merging two runs; on equal timestamps the row of the left run goes
    first. *)
Fixpoint merge (l1 : list endpoint_row) : list endpoint_row -> list endpoint_row :=
  fix merge_right (l2 : list endpoint_row) : list endpoint_row :=
    match l1, l2 with
    | [], _ => l2
    | _, [] => l1
    | a :: l1', b :: l2' =>
        if (e_datetime a <=? e_datetime b)%Z
        then a :: merge l1' l2
        else b :: merge_right l2'
    end.

(** Top-down merge sort; [fuel] bounds the depth of the recursion. *)
Fixpoint msort (fuel : nat) (l : list endpoint_row) : list endpoint_row :=
  match fuel with
  | O => l
  | S fuel' =>
      match l with
      | [] | [_] => l
      | _ =>
          let h := Nat.div2 (List.length l) in
          merge (msort fuel' (firstn h l)) (msort fuel' (skipn h l))
      end
  end.

(** [df.sort_values(by=DATETIME, kind="mergesort")] on the rows. *)
Definition sort_values (rows : list endpoint_row) : list endpoint_row :=
  msort (List.length rows) rows.

(** Lines 180-181: the endpoint rows handed to [gen_label]. *)
Definition prepare_endpoint (rows : list endpoint_row) : list endpoint_row :=
  if is_df_sorted rows then rows else sort_values rows.

(** Ascending timestamps. *)
Definition ascending (rows : list endpoint_row) : Prop :=
  Sorted Z.le (map e_datetime rows).

(** The rows at instant [t], in their order in the frame. *)
Definition rows_at (t : Z) (rows : list endpoint_row) : list endpoint_row :=
  filter (fun r => Z.eqb (e_datetime r) t) rows.

(** Timestamps far enough from the ends of the 64-bit range for the
    difference of any two of them to be representable (with nanosecond
    timestamps: the years 1823 to 2116). *)
Definition timestamps_in_range (rows : list endpoint_row) : Prop :=
  Forall (fun r => (- 2 ^ 62 <= e_datetime r < 2 ^ 62)%Z) rows.

(* ------------------------------------------------------------------ *)
(** ** Static attributes *)

(** [Series.unique()]: the distinct values in order of first appearance. *)
Fixpoint unique (l : list Z) : list Z :=
  match l with
  | [] => []
  | x :: l' => x :: filter (fun y => negb (Z.eqb y x)) (unique l')
  end.

(** [df_static[df_static[PID] == pid]]. *)
Definition static_of (df_static : list static_row) (pid : Z) : list static_row :=
  filter (fun r => Z.eqb (s_pid r) pid) df_static.

(** The body of the [try] of lines 144-145: [.values[0]] raises
    [IndexError] on an empty selection. *)
Definition mort_lookup (df_static : list static_row) (pid : Z) : result pyval :=
  match static_of df_static pid with
  | [] => Raise IndexError
  | r :: _ => Ok (s_discharge r)
  end.

(** Lines 143-149 around an arbitrary outcome of the lookup: the handlers
    of [ValueError] and [TypeError] give [False], any other exception
    leaves the [try] statement. *)
Definition mort_status_of (lookup : result pyval) : result bool :=
  match lookup with
  | Ok v => Ok (String.eqb (py_str v) "dead")
  | Raise ValueError => Ok false
  | Raise TypeError => Ok false
  | Raise e => Raise e
  end.

(** [float(series)]: the float of the only element of a one-element
    Series, [TypeError] for any other Series and for [None]. *)
Definition py_float (sel : list pynum) : result val :=
  match sel with
  | [FVal v] => Ok v
  | _ => Raise TypeError
  end.

(** The accumulators of the loop over the patients. *)
Record loop_state : Type := mk_loop_state {
  n_skipped_patients : nat;
  all_out_dfs : list DataFrame
}.

Definition skip (st : loop_state) : loop_state :=
  mk_loop_state (S (n_skipped_patients st)) (all_out_dfs st).

(** The three tables of a batch. *)
Record Batch : Type := mk_Batch {
  df_static : list static_row;
  df_all_pats : list pat_row;
  df_all_endpoints : list endpoint_row
}.

(** Appending two columns of the same name in [pd.concat]; an integer
    column meeting a float column is converted. *)
Definition col_app (a b : column) : column :=
  match a, b with
  | ColZ xs, ColZ ys => ColZ (xs ++ ys)
  | ColF xs, ColF ys => ColF (xs ++ ys)
  | ColZ xs, ColF ys => ColF (map (fun z => Num (inject_Z z)) xs ++ ys)
  | ColF xs, ColZ ys => ColF (xs ++ map (fun z => Num (inject_Z z)) ys)
  end.

Definition df_append (t1 t2 : DataFrame) : DataFrame :=
  map (fun kc =>
         match df_lookup (fst kc) t2 with
         | Some c2 => (fst kc, col_app (snd kc) c2)
         | None => kc
         end) t1.

(** [pd.concat(dfs, axis=0)] for tables with the same columns: an empty
    list raises [ValueError]. *)
Definition pd_concat (dfs : list DataFrame) : result DataFrame :=
  match dfs with
  | [] => Raise ValueError
  | t :: ts => Ok (fold_left df_append ts t)
  end.

(* ------------------------------------------------------------------ *)
(** ** [gen_label] and [label_gen_benchmark] *)

Section LabelBenchmark.

Context (U : Utils) (K : Constants).

Open Scope heap_scope.

(** [stay_length / STEPS_PER_HOUR] (true division). *)
Definition los_start (stay_length : nat) : Q :=
  inject_Z (Z.of_nat stay_length) / inject_Z (Zpos (STEPS_PER_HOUR K)).

(** [np.linspace(stay_length / STEPS_PER_HOUR, 0, num=stay_length)]. *)
Definition rem_los_raw (stay_length : nat) : list val :=
  map Num (np_linspace (los_start stay_length) 0 stay_length).

(** The same array as numpy computes it in binary64, kept beside
    [rem_los_raw] to tell which properties of the exact samples carry
    over to the rounded ones. *)
Definition rem_los_raw_f64 (stay_length : nat) : list PrimFloat.float :=
  np_linspace_f64
    (PrimFloat.div (f64_of_nat stay_length)
                   (f64_of_nat (Pos.to_nat (STEPS_PER_HOUR K))))
    PrimFloat.zero stay_length.

(** The unmasked channels of one patient, in the order in which
    [gen_label] stores them. *)
Definition raw_channels (pat : list pat_row) (ep : list endpoint_row)
    (mort_status apache_group : scalar) : list (string * list val) :=
  let stay_length := List.length (map p_rel pat) in
  let urine :=
    future_urine_output U (map p_vm24 pat) (map p_urine_cum pat)
      (map p_vm131 pat) 2 in
  [ (MORTALITY_NAME K, unique_label_at_hours U stay_length mort_status 24);
    (CIRC_FAILURE_NAME K, transition_to_failure U (map e_circ ep) 0 12);
    (RESP_FAILURE_NAME K,
     transition_to_failure U (get_any_resp_label U (map e_resp ep)) 0 12);
    (URINE_REG_NAME K, fst urine);
    (URINE_BINARY_NAME K, snd urine);
    (PHENOTYPING_NAME K, unique_label_at_hours U stay_length apache_group 24);
    (LOS_NAME K, rem_los_raw stay_length) ].

(** One channel: [arr = utils.convolve_hr(arr, hr_status_arr)] followed by
    [output_df_dict[name] = arr]. *)
Definition store_channel (hr_status_arr : list bool) (d : pydict)
    (ch : string * list val) : result pydict :=
  rbind (convolve_hr U (snd ch) hr_status_arr)
        (fun masked => Ok (dict_set d (fst ch) (VArray masked))).

Fixpoint store_channels (hr_status_arr : list bool) (d : pydict)
    (chs : list (string * list val)) : result pydict :=
  match chs with
  | [] => Ok d
  | ch :: chs' =>
      rbind (store_channel hr_status_arr d ch)
            (fun d' => store_channels hr_status_arr d' chs')
  end.

(** A channel stored under [name]: the column is the masking operator
    applied to [raw] with [mask]. *)
Definition masked_column (t : DataFrame) (name : string) (raw : list val)
    (mask : list bool) : Prop :=
  exists out, df_lookup name t = Some (ColF out)
              /\ convolve_hr U raw mask = Ok out.

(** [gen_label(df_pat, df_endpoint, mort_status, apache_group, pid,
    configs)]; the two frames are the objects of the heap.  The result is
    [None] ("no label") or the output table. *)
Definition gen_label (rt : Runtime) (configs : Configs)
    (mort_status apache_group : scalar) (pid : Z) : M (option DataFrame) :=
  pat <- read (fun h => pat_rows (df_pat h)) ;;
  let abs_time_col := map p_datetime pat in
  let rel_time_col := map p_rel pat in
  let patient_col := map p_pid pat in
  let stay_length := List.length rel_time_col in
  let hr_col := map p_hr_cum pat in
  let hr_status_arr := get_hr_status U hr_col in
  n_endpoint <- read (fun h => List.length (ep_rows (df_endpoint h))) ;;
  if (List.length pat =? 0)%nat || (n_endpoint =? 0)%nat then
    lift (logging_info_flush rt) ;;;
    ret None
  else
    set_index_datetime ;;;
    idx <- endpoint_index ;;
    lift (assert_aligned (map p_datetime pat) idx) ;;;
    ep <- read (fun h => ep_rows (df_endpoint h)) ;;
    let d0 : pydict := [] in
    let d1 := dict_set d0 (abs_datetime_key configs)
                (VSeries (ColZ abs_time_col)) in
    let d2 := dict_set d1 (rel_datetime_key configs)
                (VSeries (ColF rel_time_col)) in
    let d3 := dict_set d2 (patient_id_key configs)
                (VSeries (ColZ patient_col)) in
    output_df_dict <-
      lift (store_channels hr_status_arr d3
              (raw_channels pat ep mort_status apache_group)) ;;
    output_df <- lift (pd_DataFrame output_df_dict) ;;
    ret (Some output_df).

(** Lines 67-111 on their own: the table [gen_label] builds once the
    frames have passed its checks. *)
Definition assemble (configs : Configs) (m a : scalar) (pat : list pat_row)
    (ep : list endpoint_row) : result (option DataFrame) :=
  rbind (store_channels (get_hr_status U (map p_hr_cum pat))
           (dict_set
              (dict_set
                 (dict_set [] (abs_datetime_key configs)
                    (VSeries (ColZ (map p_datetime pat))))
                 (rel_datetime_key configs) (VSeries (ColF (map p_rel pat))))
              (patient_id_key configs) (VSeries (ColZ (map p_pid pat))))
           (raw_channels pat ep m a))
    (fun d => rbind (pd_DataFrame d) (fun t => Ok (Some t))).

(** The body of the loop of [label_gen_benchmark] for one patient (lines
    143-197): the new accumulators, or the exception that leaves the loop.
    The selection of the endpoint rows (line 163) cannot fail on a typed
    table, so the handler of line 164 has no counterpart. *)
Definition process_patient (rt : Runtime) (configs : Configs) (b : Batch)
    (st : loop_state) (pid : Z) : result loop_state :=
  rbind (mort_status_of (mort_lookup (df_static b) pid)) (fun mort_status =>
  rbind (py_float (map s_apache2 (static_of (df_static b) pid)))
    (fun apache_ii_group =>
  rbind (py_float (map s_apache4 (static_of (df_static b) pid)))
    (fun apache_iv_group =>
  let apache_pat_group :=
    merge_apache_groups U apache_ii_group apache_iv_group
      (APACHE_II_map configs) (APACHE_IV_map configs) in
  if negb (patient_path_exists rt) then Ok (skip st)
  else
    let endpoint_rows :=
      filter (fun r => Z.eqb (e_pid r) pid) (df_all_endpoints b) in
    let pat := filter (fun r => Z.eqb (p_pid r) pid) (df_all_pats b) in
    if (List.length pat =? 0)%nat || (List.length endpoint_rows =? 0)%nat then
      rbind (logging_info_flush rt) (fun _ => Ok (skip st))
    else
      let h := mk_heap (mk_pat_frame pat)
                 (mk_endpoint_frame (prepare_endpoint endpoint_rows) false) in
      rbind (fst (gen_label rt configs (SBool mort_status) apache_pat_group
                    pid h))
        (fun df_label =>
           match df_label with
           | None => Ok (skip st)
           | Some t =>
               if negb (df_nrows t =? List.length pat)%nat
               then Raise AssertionError
               else if debug_mode configs then Ok st
               else Ok (mk_loop_state (n_skipped_patients st)
                          (all_out_dfs st ++ [t]))
           end)))).

(** Lines 187-195: what the loop does with the result of [gen_label] for
    a patient with [n_rows] imputed rows. *)
Definition keep_label (configs : Configs) (st : loop_state) (n_rows : nat)
    (df_label : option DataFrame) : result loop_state :=
  match df_label with
  | None => Ok (skip st)
  | Some t =>
      if negb (df_nrows t =? n_rows)%nat then Raise AssertionError
      else if debug_mode configs then Ok st
      else Ok (mk_loop_state (n_skipped_patients st) (all_out_dfs st ++ [t]))
  end.

(** The body of the loop with the outcome of the lookup of line 144
    given: [process_patient] is [process_patient_given] at the outcome of
    [mort_lookup]. *)
Definition process_patient_given (rt : Runtime) (configs : Configs)
    (b : Batch) (st : loop_state) (pid : Z) (lookup : result pyval)
    : result loop_state :=
  rbind (mort_status_of lookup) (fun mort_status =>
  rbind (py_float (map s_apache2 (static_of (df_static b) pid)))
    (fun apache_ii_group =>
  rbind (py_float (map s_apache4 (static_of (df_static b) pid)))
    (fun apache_iv_group =>
  let apache_pat_group :=
    merge_apache_groups U apache_ii_group apache_iv_group
      (APACHE_II_map configs) (APACHE_IV_map configs) in
  if negb (patient_path_exists rt) then Ok (skip st)
  else
    let endpoint_rows :=
      filter (fun r => Z.eqb (e_pid r) pid) (df_all_endpoints b) in
    let pat := filter (fun r => Z.eqb (p_pid r) pid) (df_all_pats b) in
    if (List.length pat =? 0)%nat || (List.length endpoint_rows =? 0)%nat then
      rbind (logging_info_flush rt) (fun _ => Ok (skip st))
    else
      let h := mk_heap (mk_pat_frame pat)
                 (mk_endpoint_frame (prepare_endpoint endpoint_rows) false) in
      rbind (fst (gen_label rt configs (SBool mort_status) apache_pat_group
                    pid h))
        (keep_label configs st (List.length pat))))).

(** The loop over the patients: the first exception ends it. *)
Fixpoint process_patients (rt : Runtime) (configs : Configs) (b : Batch)
    (st : loop_state) (pids : list Z) : result loop_state :=
  match pids with
  | [] => Ok st
  | pid :: pids' =>
      rbind (process_patient rt configs b st pid)
            (fun st' => process_patients rt configs b st' pids')
  end.

(** [label_gen_benchmark(configs)] from the three tables of the batch,
    once they are loaded (lines 130-204): the final accumulators and the
    table handed to [to_parquet] ([None] in debug mode, where nothing is
    written).  The file operations around it are not part of it: the
    deletion of an earlier output (lines 125-126), the reads of the three
    tables and the write itself (line 206). *)
Definition label_gen_benchmark (rt : Runtime) (configs : Configs) (b : Batch)
    : result (loop_state * option DataFrame) :=
  let all_pids := unique (map p_pid (df_all_pats b)) in
  rbind (process_patients rt configs b (mk_loop_state 0 []) all_pids)
    (fun st =>
       if debug_mode configs then Ok (st, None)
       else rbind (pd_concat (all_out_dfs st))
                  (fun combined_df => Ok (st, Some combined_df))).

Close Scope heap_scope.

End LabelBenchmark.

(* ------------------------------------------------------------------ *)
(** ** The transforms of [icu_benchmarks.labels.utils]

    The module [utils] is not part of the sources at hand; the definitions
    of this section follow the design document (sections 4.1 to 4.6 and
    8). *)

Module SpecUtils.

Section Transforms.

(** The resolution of the grid and the lookback of the validity
    classifier, which the design document calls "a fixed short lookback
    offset" without giving it. *)
Variable steps_per_hour : positive.
Variable lookback : nat.

Definition hours_to_steps (hours : Z) : nat :=
  Z.to_nat (hours * Zpos steps_per_hour).

(** Modelled from the spec: [utils.get_hr_status] is missing; section 4.1:
    true at [t] iff the count at [t] is strictly greater than the count
    [lookback] steps before [t]; before the lookback has elapsed a
    timestep is valid only if the count is nonzero from the first
    timestep on. *)
Definition get_hr_status (hr_col : list Z) : list bool :=
  map (fun t =>
         if (lookback <=? t)%nat
         then (nth (t - lookback) hr_col 0 <? nth t hr_col 0)%Z
         else (0 <? nth 0 hr_col 0)%Z)
      (seq 0 (List.length hr_col)).

Fixpoint mask_with (in_arr : list val) (hr_status_arr : list bool) : list val :=
  match in_arr, hr_status_arr with
  | v :: in_arr', m :: hr_status_arr' =>
      (if m then v else NaN) :: mask_with in_arr' hr_status_arr'
  | _, _ => []
  end.

(** Modelled from the spec: [utils.convolve_hr] is missing; section 4.2:
    the input with every position where validity is false overwritten by
    the unknown sentinel; [LengthMismatch] for arrays of unequal
    length. *)
Definition convolve_hr (in_arr : list val) (hr_status_arr : list bool)
    : result (list val) :=
  if (List.length in_arr =? List.length hr_status_arr)%nat
  then Ok (mask_with in_arr hr_status_arr)
  else Raise LengthMismatch.

(** The float an array cell takes when a scalar is stored in it. *)
Definition scalar_val (s : scalar) : val :=
  match s with
  | SBool true => Num 1
  | SBool false => Num 0
  | SVal v => v
  | SNone => NaN
  end.

(** Modelled from the spec: [utils.unique_label_at_hours] is missing;
    section 4.3: unknown before [at_hours * steps_per_hour], the scalar at
    and after that offset. *)
Definition unique_label_at_hours (stay_length : nat) (status : scalar)
    (at_hours : Z) : list val :=
  map (fun t => if (t <? hours_to_steps at_hours)%nat then NaN
                else scalar_val status)
      (seq 0 stay_length).

Definition is_failure (v : val) : bool :=
  match v with Num q => Qeq_bool q 1 | NaN => false end.

(** Modelled from the spec: [utils.transition_to_failure] is missing;
    sections 4.4 and 8: true at [t] iff the status is "failure" at some
    timestep of the window [[t + lhours * R, t + rhours * R)]; indices
    past the end of the series count as "not failure". *)
Definition transition_to_failure (ann_col : list val) (lhours rhours : Z)
    : list val :=
  map (fun t =>
         let lo := (t + hours_to_steps lhours)%nat in
         let hi := (t + hours_to_steps rhours)%nat in
         if existsb is_failure (firstn (hi - lo) (skipn lo ann_col))
         then Num 1 else Num 0)
      (seq 0 (List.length ann_col)).

Definition val_add (a b : val) : val :=
  match a, b with
  | Num x, Num y => Num (Qred (x + y))
  | _, _ => NaN
  end.

(** Whether the count rises at some step of the window of [n] steps that
    starts at [t] (the count before the first timestep is 0). *)
Definition measured_in (meas : list Z) (t n : nat) : bool :=
  existsb (fun j => (nth (j - 1) (0%Z :: meas) 0 <? nth j (0%Z :: meas) 0)%Z)
          (seq (S t) (Nat.min n (List.length meas - t))).

(** The oliguria cutoff of the binary urine channel ("Binary below 0.5"
    in the comment of [gen_label]). *)
Definition oliguria_threshold : Q := 1 # 2.

(** Modelled from the spec: [utils.future_urine_output] is missing;
    section 4.5: the output measured in [[t, t + rhours * R)] divided by
    (weight at [t] times [rhours]), unknown when the window holds no
    genuine measurement or the weight is missing or not positive; the
    binary target is 1 below the cutoff, 0 otherwise, unknown where the
    regression target is. *)
Definition future_urine_output (urine_col : list val) (urine_meas_arr : list Z)
    (weight_col : list val) (rhours : Z) : list val * list val :=
  let n := hours_to_steps rhours in
  let reg :=
    map (fun t =>
           match nth t weight_col NaN with
           | Num w =>
               if Qle_bool w 0 || negb (measured_in urine_meas_arr t n)
               then NaN
               else match fold_left val_add
                            (firstn n (skipn t urine_col)) (Num 0) with
                    | Num s => Num (Qred (s / (w * inject_Z rhours)))
                    | NaN => NaN
                    end
           | NaN => NaN
           end)
        (seq 0 (List.length urine_col)) in
  (reg,
   map (fun v => match v with
                 | Num r => if Qle_bool oliguria_threshold r then Num 0
                            else Num 1
                 | NaN => NaN
                 end) reg).

Fixpoint map_get (m : apache_map) (k : Z) : option Z :=
  match m with
  | [] => None
  | (k', b) :: m' => if Z.eqb k' k then Some b else map_get m' k
  end.

(** The bucket a score maps to, if it is a whole number present in the
    table. *)
Definition bucket_of (score : val) (m : apache_map) : option Z :=
  match score with
  | Num q => if Qeq_bool q (inject_Z (Qfloor q)) then map_get m (Qfloor q)
             else None
  | NaN => None
  end.

(** Modelled from the spec: [utils.merge_apache_groups] is missing;
    section 4.6: the bucket of the mapping that yields one, unknown when
    neither does.  The design document leaves the precedence between two
    defined buckets open; here the first scoring system wins. *)
Definition merge_apache_groups (apache_ii_group apache_iv_group : val)
    (apache_ii_map apache_iv_map : apache_map) : scalar :=
  match bucket_of apache_ii_group apache_ii_map with
  | Some b => SVal (Num (inject_Z b))
  | None =>
      match bucket_of apache_iv_group apache_iv_map with
      | Some b => SVal (Num (inject_Z b))
      | None => SVal NaN
      end
  end.

(** The design document does not describe [utils.get_any_resp_label]; the
    examples read a respiratory status as failure when it is not
    ["event_0"]. *)
Definition get_any_resp_label (pre_resp_arr : list string) : list val :=
  map (fun s => if String.eqb s "event_0" then Num 0 else Num 1) pre_resp_arr.

Definition utils : Utils :=
  mk_Utils get_hr_status convolve_hr unique_label_at_hours
    transition_to_failure get_any_resp_label future_urine_output
    merge_apache_groups.

End Transforms.

End SpecUtils.

(* ------------------------------------------------------------------ *)
(** ** Concrete batches *)

Module Examples.

(** The grid of the benchmark: 12 steps per hour. *)
Definition K12 : Constants :=
  mk_Constants "Mortality_At24Hours" "Dynamic_CircFailure_12Hours"
    "Dynamic_RespFailure_12Hours" "Dynamic_UrineOutput_2Hours_Reg"
    "Dynamic_UrineOutput_2Hours_Binary" "Phenotyping_APACHEGroup"
    "Remaining_LOS_Reg" 12.

Definition U12 : Utils := SpecUtils.utils 12 2.

Definition cfg : Configs :=
  mk_Configs "datetime" "rel_datetime" "patientid"
    [(1%Z, 0%Z); (2%Z, 1%Z)] [(3%Z, 0%Z); (4%Z, 2%Z)] false false.

(** INFO disabled (the default level of the root logger) and enabled. *)
Definition rt_quiet : Runtime := mk_Runtime false true.
Definition rt_info : Runtime := mk_Runtime true true.

(** Row [t] of a patient whose heart rate is measured at every step. *)
Definition pat_row_at (pid : Z) (t : nat) : pat_row :=
  mk_pat_row pid (Z.of_nat t) (Num (inject_Z (Z.of_nat t)))
    (Z.of_nat (S t)) (Z.of_nat (S t)) (Num 70) (Num 5).

Definition endpoint_row_at (pid : Z) (t : nat) : endpoint_row :=
  mk_endpoint_row pid (Z.of_nat t) (Num 0) "event_0".

Definition pat_of (pid : Z) (n : nat) : list pat_row :=
  map (pat_row_at pid) (seq 0 n).
Definition endpoint_of (pid : Z) (n : nat) : list endpoint_row :=
  map (endpoint_row_at pid) (seq 0 n).

Definition heap_of (pid : Z) (n : nat) : heap :=
  mk_heap (mk_pat_frame (pat_of pid n))
          (mk_endpoint_frame (endpoint_of pid n) false).

Definition static_alive (pid : Z) : static_row :=
  mk_static_row pid (PStr "alive") (FVal (Num 1)) (FVal NaN).
Definition static_dead (pid : Z) : static_row :=
  mk_static_row pid (PStr "dead") (FVal NaN) (FVal (Num 4)).

(** Two patients of three timesteps each, both aligned. *)
Definition batch_ok : Batch :=
  mk_Batch [static_alive 7; static_dead 8]
           (pat_of 7 3 ++ pat_of 8 3)
           (endpoint_of 7 3 ++ endpoint_of 8 3).

(** The endpoint rows of patient 7 are shifted by one step against the
    imputed rows; patient 8 is aligned. *)
Definition shifted_endpoint (pid : Z) (n : nat) : list endpoint_row :=
  map (fun t => endpoint_row_at pid (S t)) (seq 0 n).

Definition batch_misaligned : Batch :=
  mk_Batch [static_alive 7; static_dead 8]
           (pat_of 7 3 ++ pat_of 8 3)
           (shifted_endpoint 7 3 ++ endpoint_of 8 3).

(** Patient 7 has no endpoint rows; patient 8 is complete. *)
Definition batch_no_endpoint : Batch :=
  mk_Batch [static_alive 7; static_dead 8]
           (pat_of 7 3 ++ pat_of 8 3)
           (endpoint_of 8 3).

(** The APACHE II cell of patient 7 is [None]; patient 8 is complete. *)
Definition batch_bad_apache : Batch :=
  mk_Batch [mk_static_row 7 (PStr "alive") FNone (FVal NaN); static_dead 8]
           (pat_of 7 3 ++ pat_of 8 3)
           (endpoint_of 7 3 ++ endpoint_of 8 3).

(** Endpoint rows out of order, two of them at the same instant. *)
Definition unsorted_endpoint : list endpoint_row :=
  [ mk_endpoint_row 7 2 (Num 0) "a"; mk_endpoint_row 7 1 (Num 1) "b";
    mk_endpoint_row 7 2 (Num 1) "c"; mk_endpoint_row 7 0 (Num 0) "d" ].

End Examples.

(** Further patients. *)
Module MoreExamples.

(** A patient of 290 timesteps whose heart rate is measured at every step
    but the last two. *)
Definition stale_row_at (pid : Z) (t : nat) : pat_row :=
  mk_pat_row pid (Z.of_nat t) (Num (inject_Z (Z.of_nat t)))
    (Z.of_nat (S (Nat.min t 287))) (Z.of_nat (S t)) (Num 70) (Num 5).

Definition heap_stale : heap :=
  mk_heap (mk_pat_frame (map (stale_row_at 7) (seq 0 290)))
          (mk_endpoint_frame (Examples.endpoint_of 7 290) false).

(** A patient of three timesteps whose weight is missing. *)
Definition no_weight_row_at (pid : Z) (t : nat) : pat_row :=
  mk_pat_row pid (Z.of_nat t) (Num (inject_Z (Z.of_nat t)))
    (Z.of_nat (S t)) (Z.of_nat (S t)) NaN (Num 5).

Definition heap_no_weight : heap :=
  mk_heap (mk_pat_frame (map (no_weight_row_at 7) (seq 0 3)))
          (mk_endpoint_frame (Examples.endpoint_of 7 3) false).




End MoreExamples.

(* ------------------------------------------------------------------ *)
(** ** Auxiliary notions for the properties of the driver *)

(** A transform that yields a binary array: no entry is unknown. *)
Definition never_unknown (f : list val -> Z -> Z -> list val) : Prop :=
  forall col lhours rhours, Forall (fun v => v <> NaN) (f col lhours rhours).

(** The binary urine target is unknown exactly where the regression
    target is. *)
Definition binary_follows_regression
    (f : list val -> list Z -> list val -> Z -> list val * list val) : Prop :=
  forall urine meas weight rhours i,
    nth i (snd (f urine meas weight rhours)) NaN = NaN
    <-> nth i (fst (f urine meas weight rhours)) NaN = NaN.

(** Each binary64 entry is smaller than the one before it. *)
Fixpoint decreasing_f64 (l : list PrimFloat.float) : bool :=
  match l with
  | x :: (y :: _) as t => PrimFloat.ltb y x && decreasing_f64 t
  | _ => true
  end.


(** Consecutive drops of a binary64 array agree within [tol]. *)
Fixpoint near_linear_f64 (tol : PrimFloat.float) (l : list PrimFloat.float)
    : bool :=
  match l with
  | x :: ((y :: z :: _) as t) =>
      PrimFloat.leb
        (PrimFloat.abs
           (PrimFloat.sub (PrimFloat.sub x y) (PrimFloat.sub y z)))
        tol
      && near_linear_f64 tol t
  | _ => true
  end.

(** The binary64 channel of a stay of [L] steps has [L] entries, starts at
    the rounded quotient [L / STEPS_PER_HOUR], ends at 0, is strictly
    decreasing, and its consecutive drops agree within the first value
    scaled by [2 ^ -40]. *)
Definition rem_los_f64_ok (K : Constants) (L : nat) : bool :=
  let l := rem_los_raw_f64 K L in
  let start :=
    PrimFloat.div (f64_of_nat L)
                  (f64_of_nat (Pos.to_nat (STEPS_PER_HOUR K))) in
  (List.length l =? L)%nat
  && PrimFloat.eqb (nth 0 l PrimFloat.nan) start
  && PrimFloat.eqb (nth (L - 1) l PrimFloat.nan) PrimFloat.zero
  && decreasing_f64 l
  && near_linear_f64
       (PrimFloat.div start (PrimFloat.of_uint63 (Uint63.of_Z (2 ^ 40)))) l.

(** [configs] with its entry ["debug_mode"] set. *)
Definition set_debug (configs : Configs) (d : bool) : Configs :=
  mk_Configs (abs_datetime_key configs) (rel_datetime_key configs)
    (patient_id_key configs) (APACHE_II_map configs) (APACHE_IV_map configs)
    d (verbose configs).

(** The rows of one patient in the three tables of a batch. *)
Definition restrict_batch (b : Batch) (pid : Z) : Batch :=
  mk_Batch (static_of (df_static b) pid)
           (filter (fun r => Z.eqb (p_pid r) pid) (df_all_pats b))
           (filter (fun r => Z.eqb (e_pid r) pid) (df_all_endpoints b)).

(** Collaborators that return one label per timestep: every transform
    keeps the length of its input, and masking succeeds on arrays of equal
    length. *)
Definition length_preserving (U : Utils) : Prop :=
  (forall c, List.length (get_hr_status U c) = List.length c)
  /\ (forall arr mask, List.length arr = List.length mask ->
        exists out, convolve_hr U arr mask = Ok out
                    /\ List.length out = List.length arr)
  /\ (forall L s hours, List.length (unique_label_at_hours U L s hours) = L)
  /\ (forall c l r, List.length (transition_to_failure U c l r) = List.length c)
  /\ (forall c, List.length (get_any_resp_label U c) = List.length c)
  /\ (forall u c w r,
        List.length (fst (future_urine_output U u c w r)) = List.length u
        /\ List.length (snd (future_urine_output U u c w r)) = List.length u).

Definition entry_len (kv : string * dict_value) : nat :=
  col_len (dict_value_column (snd kv)).

(* ------------------------------------------------------------------ *)
(** ** The file-system helpers

    [delete_if_exist] and [create_dir_if_not_exist] over a tree of files
    and directories.  A path is absolute and normalised and is given by
    its components, the last one first (the root is the empty list);
    symbolic links and permissions are not part of the model.  The errors
    are those of [os.remove], [os.mkdir] and [os.makedirs] on Linux. *)

Module FileSystem.

Inductive node : Type := File | Dir.

Definition path : Type := list string.

Definition fs : Type := path -> option node.

Inductive os_error : Type :=
| FileNotFoundError | FileExistsError | IsADirectoryError
| NotADirectoryError.

Inductive outcome : Type :=
| Done (s : fs)
| Fails (e : os_error).

Definition path_eq_dec (p q : path) : {p = q} + {p <> q} :=
  list_eq_dec string_dec p q.

Definition fs_set (s : fs) (p : path) (v : option node) : fs :=
  fun q => if path_eq_dec p q then v else s q.

(** [os.path.exists(path)]. *)
Definition exists_ (s : fs) (p : path) : bool :=
  match s p with Some _ => true | None => false end.

(** [os.remove(path)]. *)
Definition remove (s : fs) (p : path) : outcome :=
  match s p with
  | Some File => Done (fs_set s p None)
  | Some Dir => Fails IsADirectoryError
  | None => Fails FileNotFoundError
  end.

(** [os.mkdir(path)]. *)
Definition mkdir (s : fs) (p : path) : outcome :=
  match s p with
  | Some _ => Fails FileExistsError
  | None =>
      match p with
      | [] => Fails FileNotFoundError
      | _ :: parent =>
          match s parent with
          | Some Dir => Done (fs_set s p (Some Dir))
          | Some File => Fails NotADirectoryError
          | None => Fails FileNotFoundError
          end
      end
  end.

(** [os.makedirs(path)]: the parent is created first when it does not
    exist, a [FileExistsError] of that step being ignored, then the
    directory itself is made. *)
Fixpoint makedirs (s : fs) (p : path) : outcome :=
  match p with
  | [] => mkdir s p
  | _ :: parent =>
      if exists_ s parent then mkdir s p
      else match makedirs s parent with
           | Done s' => mkdir s' p
           | Fails FileExistsError => mkdir s p
           | Fails e => Fails e
           end
  end.

(** [delete_if_exist(path)]. *)
Definition delete_if_exist (s : fs) (p : path) : outcome :=
  if exists_ s p then remove s p else Done s.

(** [create_dir_if_not_exist(path, recursive)]. *)
Definition create_dir_if_not_exist (s : fs) (p : path) (recursive : bool)
    : outcome :=
  if negb (exists_ s p) then
    if recursive then makedirs s p else mkdir s p
  else Done s.

(** A tree: the root is a directory and whatever exists lies in a
    directory. *)
Definition well_formed (s : fs) : Prop :=
  s [] = Some Dir
  /\ forall c parent, s (c :: parent) <> None -> s parent = Some Dir.

(** [q] is [p] or lies above it. *)
Definition above (q p : path) : Prop := exists pre, p = pre ++ q.

(** An empty tree with the directory [/data]. *)
Definition data_tree : fs :=
  fs_set (fs_set (fun _ => None) [] (Some Dir)) ["data"%string] (Some Dir).

End FileSystem.

(* ------------------------------------------------------------------ *)
(** ** Remaining length of stay *)

Lemma np_linspace_length (start stop : Q) (num : nat) :
  List.length (np_linspace start stop num) = num.
Proof. unfold np_linspace. now rewrite length_map, length_seq. Qed.

Lemma np_linspace_nth (start stop : Q) (num i : nat) (d : Q) :
  (i < num)%nat ->
  nth i (np_linspace start stop num) d = linspace_at start stop num i.
Proof.
  intros Hi. unfold np_linspace.
  rewrite (nth_indep _ d (linspace_at start stop num 0))
    by now rewrite length_map, length_seq.
  rewrite map_nth, seq_nth by exact Hi. reflexivity.
Qed.

Lemma rem_los_raw_nth (K : Constants) (L i : nat) :
  (i < L)%nat ->
  nth i (rem_los_raw K L) NaN = Num (linspace_at (los_start K L) 0 L i).
Proof.
  intros Hi. unfold rem_los_raw.
  rewrite (nth_indep _ NaN (Num 0))
    by now rewrite length_map, np_linspace_length.
  rewrite map_nth. f_equal. now apply np_linspace_nth.
Qed.










(** What C6 states of the exact samples holds of the binary64 samples as
    well, for every stay of 2 to 288 timesteps at twelve steps per
    hour. *)
Lemma rem_los_raw_f64_first_day :
  forallb (rem_los_f64_ok Examples.K12) (seq 2 287) = true.
Proof. vm_compute. reflexivity. Qed.

(* ------------------------------------------------------------------ *)
(** ** The batch driver: exceptions and skips *)

Lemma all_eqb_eq (a b : list Z) : all_eqb a b = true <-> a = b.
Proof.
  revert b. induction a as [|x a IH]; intros [|y b]; simpl;
    try (split; [discriminate | discriminate]); [tauto|].
  rewrite andb_true_iff, Z.eqb_eq, IH. split.
  - intros [-> ->]. reflexivity.
  - intros H. injection H as -> ->. split; reflexivity.
Qed.

Lemma assert_aligned_ok (pat_times idx : list Z) :
  assert_aligned pat_times idx = Ok tt <-> pat_times = idx.
Proof.
  unfold assert_aligned. split.
  - destruct (List.length pat_times =? List.length idx)%nat; simpl;
      [|discriminate].
    destruct (all_eqb pat_times idx) eqn:E; [|discriminate].
    intros _. now apply all_eqb_eq.
  - intros ->. rewrite Nat.eqb_refl. simpl.
    now replace (all_eqb idx idx) with true by (symmetry; now apply all_eqb_eq).
Qed.

Lemma assert_aligned_raises (pat_times idx : list Z) :
  pat_times <> idx ->
  assert_aligned pat_times idx = Raise ValueError
  \/ assert_aligned pat_times idx = Raise AssertionError.
Proof.
  intros Hne. unfold assert_aligned.
  destruct (List.length pat_times =? List.length idx)%nat; simpl; [|now left].
  destruct (all_eqb pat_times idx) eqn:E; [|now right].
  apply all_eqb_eq in E. contradiction.
Qed.

(** Projections of a heap given by its constructor. *)
Ltac heap_simpl :=
  cbn [df_pat pat_rows df_endpoint ep_rows ep_indexed fst snd].

Section DriverFacts.

Context (U : Utils) (K : Constants).

(** An exception raised for one patient leaves the loop at once. *)
Lemma process_patients_app (rt : Runtime) (configs : Configs) (b : Batch)
    (st : loop_state) (pre post : list Z) :
  process_patients U K rt configs b st (pre ++ post)
  = rbind (process_patients U K rt configs b st pre)
          (fun st' => process_patients U K rt configs b st' post).
Proof.
  revert st. induction pre as [|p pre IH]; intros st; simpl; [reflexivity|].
  destruct (process_patient U K rt configs b st p); simpl; [apply IH|reflexivity].
Qed.

(** [gen_label] run on a heap, as one expression: the result and the heap
    it leaves. *)
Lemma gen_label_run (rt : Runtime) (configs : Configs) (m a : scalar)
    (pid : Z) (h : heap) :
  let pat := pat_rows (df_pat h) in
  let ep := ep_rows (df_endpoint h) in
  gen_label U K rt configs m a pid h =
  if (List.length pat =? 0)%nat || (List.length ep =? 0)%nat
  then (rbind (logging_info_flush rt) (fun _ => Ok None), h)
  else if ep_indexed (df_endpoint h) then (Raise KeyError, h)
  else if has_dup (map e_datetime ep) then (Raise ValueError, h)
  else (rbind (assert_aligned (map p_datetime pat) (map e_datetime ep))
          (fun _ => assemble U K configs m a pat ep),
        mk_heap (df_pat h) (mk_endpoint_frame ep true)).
Proof.
  intros pat ep. subst pat ep.
  unfold gen_label, assemble, bind, read, lift, ret, set_index_datetime,
    endpoint_index, read.
  destruct ((List.length (pat_rows (df_pat h)) =? 0)%nat
            || (List.length (ep_rows (df_endpoint h)) =? 0)%nat).
  - destruct (logging_info_flush rt) as [[]|e]; reflexivity.
  - destruct (ep_indexed (df_endpoint h)); [reflexivity|].
    destruct (has_dup (map e_datetime (ep_rows (df_endpoint h))));
      [reflexivity|].
    heap_simpl.
    destruct (assert_aligned _ _) as [[]|e]; [|reflexivity].
    cbn [rbind].
    destruct (store_channels _ _ _ _) as [d|e]; [|reflexivity].
    cbn [rbind].
    destruct (pd_DataFrame d) as [t|e]; reflexivity.
Qed.

(** On frames that are both non-empty and whose timestamps differ,
    [gen_label] raises. *)
Lemma gen_label_misaligned_raises (rt : Runtime) (configs : Configs)
    (m a : scalar) (pid : Z) (pat : list pat_row) (ep : list endpoint_row) :
  pat <> [] -> ep <> [] ->
  map p_datetime pat <> map e_datetime ep ->
  exists e, (e = AssertionError \/ e = ValueError)
    /\ fst (gen_label U K rt configs m a pid
              (mk_heap (mk_pat_frame pat) (mk_endpoint_frame ep false)))
       = Raise e.
Proof.
  intros Hpat Hep Hne.
  assert (Hp : (List.length pat =? 0)%nat = false)
    by (destruct pat; [contradiction | reflexivity]).
  assert (He : (List.length ep =? 0)%nat = false)
    by (destruct ep; [contradiction | reflexivity]).
  rewrite gen_label_run. heap_simpl. rewrite Hp, He. cbn [orb].
  destruct (has_dup (map e_datetime ep)).
  - exists ValueError. split; [now right | reflexivity].
  - destruct (assert_aligned_raises Hne) as [E | E]; rewrite E.
    + exists ValueError. split; [now right | reflexivity].
    + exists AssertionError. split; [now left | reflexivity].
Qed.

End DriverFacts.

(* ------------------------------------------------------------------ *)
(** ** The sort of the endpoint rows is a stable sort *)

Lemma wrap64_small (z : Z) :
  (- 2 ^ 63 <= z < 2 ^ 63)%Z -> wrap64 z = z.
Proof.
  intros Hz. unfold wrap64. rewrite Z.mod_small; lia.
Qed.

(** On timestamps in range [is_df_sorted] tells whether they ascend. *)
Lemma is_df_sorted_iff (rows : list endpoint_row) :
  timestamps_in_range rows ->
  (is_df_sorted rows = true <-> ascending rows).
Proof.
  unfold is_df_sorted, ascending, timestamps_in_range.
  induction rows as [|a rows IH]; intros Hr.
  - simpl. split; [constructor | reflexivity].
  - inversion Hr as [|? ? Ha Hr']; subst. specialize (IH Hr').
    destruct rows as [|b rows].
    + simpl. split; [repeat constructor | reflexivity].
    + inversion Hr' as [|? ? Hb _]; subst.
      change (diffs (map e_datetime (a :: b :: rows)))
        with (wrap64 (e_datetime b - e_datetime a)
              :: diffs (map e_datetime (b :: rows))).
      rewrite wrap64_small by lia.
      cbn [forallb]. rewrite andb_true_iff, IH, Z.leb_le. cbn [map]. split.
      * intros [Hab Hs]. constructor; [exact Hs | constructor; lia].
      * intros Hs. inversion Hs as [|? ? Hs' Hhd]; subst.
        inversion Hhd; subst. split; [lia | exact Hs'].
Qed.

Lemma merge_nil_l (l : list endpoint_row) : merge [] l = l.
Proof. destruct l; reflexivity. Qed.

Lemma merge_nil_r (l : list endpoint_row) : merge l [] = l.
Proof. destruct l; reflexivity. Qed.

Lemma merge_cons (a b : endpoint_row) (l1 l2 : list endpoint_row) :
  merge (a :: l1) (b :: l2)
  = if (e_datetime a <=? e_datetime b)%Z
    then a :: merge l1 (b :: l2)
    else b :: merge (a :: l1) l2.
Proof. reflexivity. Qed.

Lemma merge_perm (l1 l2 : list endpoint_row) :
  Permutation (l1 ++ l2) (merge l1 l2).
Proof.
  revert l2. induction l1 as [|a l1 IH1]; intros l2;
    [now rewrite merge_nil_l|].
  induction l2 as [|b l2 IH2].
  - rewrite merge_nil_r, app_nil_r. reflexivity.
  - rewrite merge_cons. destruct (e_datetime a <=? e_datetime b)%Z.
    + simpl. constructor. apply IH1.
    + etransitivity; [|constructor; apply IH2].
      symmetry. apply (Permutation_middle (a :: l1) l2 b).
Qed.

Lemma merge_hd_rel (x : Z) (l1 l2 : list endpoint_row) :
  HdRel Z.le x (map e_datetime l1) -> HdRel Z.le x (map e_datetime l2) ->
  HdRel Z.le x (map e_datetime (merge l1 l2)).
Proof.
  intros H1 H2. destruct l1 as [|a l1]; [now rewrite merge_nil_l|].
  destruct l2 as [|b l2]; [exact H1|].
  rewrite merge_cons. destruct (e_datetime a <=? e_datetime b)%Z.
  - constructor. now inversion H1.
  - constructor. now inversion H2.
Qed.

Lemma merge_ascending (l1 l2 : list endpoint_row) :
  ascending l1 -> ascending l2 -> ascending (merge l1 l2).
Proof.
  unfold ascending. revert l2.
  induction l1 as [|a l1 IH1]; intros l2 H1 H2; [now rewrite merge_nil_l|].
  induction l2 as [|b l2 IH2]; [now rewrite merge_nil_r|].
  rewrite merge_cons. destruct (e_datetime a <=? e_datetime b)%Z eqn:E.
  - cbn [map] in *. inversion H1; subst. constructor.
    + apply IH1; assumption.
    + apply merge_hd_rel; [assumption|]. constructor. now apply Z.leb_le.
  - cbn [map] in *. inversion H2; subst. constructor.
    + apply IH2; assumption.
    + apply merge_hd_rel; [|assumption].
      constructor. apply Z.leb_gt in E. lia.
Qed.

Lemma rows_at_later_nil (t x : Z) (l : list endpoint_row) :
  Forall (Z.le x) (map e_datetime l) -> (t < x)%Z -> rows_at t l = [].
Proof.
  intros Hall Hlt. induction l as [|c l IH]; [reflexivity|].
  cbn [map] in Hall. inversion Hall as [|? ? Hc Hall']; subst.
  unfold rows_at. cbn [filter].
  replace (e_datetime c =? t)%Z with false
    by (symmetry; apply Z.eqb_neq; lia).
  now apply IH.
Qed.

(** No row of an ascending run is earlier than the head of the run. *)
Lemma ascending_rows_at_nil (t : Z) (a : endpoint_row) (l : list endpoint_row) :
  ascending (a :: l) -> (t < e_datetime a)%Z -> rows_at t (a :: l) = [].
Proof.
  unfold ascending. intros Hs Hlt.
  apply Sorted_StronglySorted in Hs; [|exact Z.le_trans].
  apply (@rows_at_later_nil t (e_datetime a)); [|exact Hlt].
  cbn [map] in *. inversion Hs as [|? ? _ Hall]; subst.
  constructor; [lia | exact Hall].
Qed.

Lemma rows_at_cons (t : Z) (a : endpoint_row) (l : list endpoint_row) :
  rows_at t (a :: l)
  = if (e_datetime a =? t)%Z then a :: rows_at t l else rows_at t l.
Proof. reflexivity. Qed.

(** Merging keeps the rows of one instant in order, those of the left run
    first. *)
Lemma merge_rows_at (t : Z) (l1 l2 : list endpoint_row) :
  ascending l1 -> ascending l2 ->
  rows_at t (merge l1 l2) = rows_at t l1 ++ rows_at t l2.
Proof.
  revert l2. induction l1 as [|a l1 IH1]; intros l2 H1 H2;
    [now rewrite merge_nil_l|].
  induction l2 as [|b l2 IH2].
  - now rewrite merge_nil_r, app_nil_r.
  - assert (H1' : ascending l1) by (unfold ascending in *; now inversion H1).
    assert (H2' : ascending l2) by (unfold ascending in *; now inversion H2).
    rewrite merge_cons. destruct (e_datetime a <=? e_datetime b)%Z eqn:E.
    + rewrite (rows_at_cons t a (merge l1 (b :: l2))), (rows_at_cons t a l1).
      rewrite (IH1 (b :: l2) H1' H2).
      destruct (e_datetime a =? t)%Z; reflexivity.
    + rewrite (rows_at_cons t b (merge (a :: l1) l2)), (rows_at_cons t b l2).
      rewrite (IH2 H2').
      destruct (e_datetime b =? t)%Z eqn:Eb; [|reflexivity].
      apply Z.eqb_eq in Eb. apply Z.leb_gt in E.
      rewrite (ascending_rows_at_nil H1) by lia. reflexivity.
Qed.

Lemma ascending_short (l : list endpoint_row) :
  (List.length l <= 1)%nat -> ascending l.
Proof.
  destruct l as [|a [|b l]]; simpl; intros H; try lia; repeat constructor.
Qed.

Lemma div2_halves (n : nat) :
  (2 <= n)%nat -> (0 < Nat.div2 n < n)%nat.
Proof.
  intros Hn. split.
  - destruct n as [|[|n]]; [lia | lia |].
    change (Nat.div2 (S (S n))) with (S (Nat.div2 n)). apply Nat.lt_0_succ.
  - apply Nat.lt_div2. lia.
Qed.

(** With enough fuel the merge sort is a stable sort. *)
Lemma msort_spec (fuel : nat) (l : list endpoint_row) :
  (List.length l <= S fuel)%nat ->
  ascending (msort fuel l)
  /\ Permutation l (msort fuel l)
  /\ forall t, rows_at t (msort fuel l) = rows_at t l.
Proof.
  revert l. induction fuel as [|fuel IH]; intros l Hlen.
  - simpl. split; [apply ascending_short; simpl in *; lia|]. split; reflexivity.
  - cbn [msort]. destruct l as [|a [|b l']].
    + split; [apply ascending_short; simpl in *; lia|]. split; reflexivity.
    + split; [apply ascending_short; simpl in *; lia|]. split; reflexivity.
    + set (l := a :: b :: l') in *.
      assert (Hh : (0 < Nat.div2 (List.length l) < List.length l)%nat)
        by (apply div2_halves; simpl; lia).
      set (h := Nat.div2 (List.length l)) in *.
      destruct (IH (firstn h l)) as [S1 [P1 R1]];
        [rewrite length_firstn; lia|].
      destruct (IH (skipn h l)) as [S2 [P2 R2]];
        [rewrite length_skipn; lia|].
      split; [now apply merge_ascending|]. split.
      * rewrite <- (firstn_skipn h l) at 1.
        etransitivity; [|apply merge_perm].
        now apply Permutation_app.
      * intros t. rewrite merge_rows_at, R1, R2 by assumption.
        unfold rows_at. rewrite <- filter_app. now rewrite firstn_skipn.
Qed.

Lemma sort_values_spec (rows : list endpoint_row) :
  ascending (sort_values rows)
  /\ Permutation rows (sort_values rows)
  /\ forall t, rows_at t (sort_values rows) = rows_at t rows.
Proof. apply msort_spec. lia. Qed.

Lemma prepare_endpoint_length (rows : list endpoint_row) :
  List.length (prepare_endpoint rows) = List.length rows.
Proof.
  unfold prepare_endpoint. destruct (is_df_sorted rows); [reflexivity|].
  symmetry. apply Permutation_length, sort_values_spec.
Qed.

(** Four rows out of order: the two rows of instant 2 keep their order. *)
Example sort_values_unsorted_endpoint :
  is_df_sorted Examples.unsorted_endpoint = false
  /\ map e_resp (prepare_endpoint Examples.unsorted_endpoint)
     = ["d"; "b"; "a"; "c"]%string.
Proof. split; reflexivity. Qed.

(** The prepared rows are a permutation of the rows and keep the rows
    of every instant in order; an ascending frame is handed over as it
    is. *)
Lemma prepare_endpoint_stable (rows : list endpoint_row) :
  Permutation rows (prepare_endpoint rows)
  /\ (forall t, rows_at t (prepare_endpoint rows) = rows_at t rows).
Proof.
  unfold prepare_endpoint. destruct (is_df_sorted rows).
  - split; reflexivity.
  - apply sort_values_spec.
Qed.

Lemma timestamps_in_range_perm (l l' : list endpoint_row) :
  Permutation l l' -> timestamps_in_range l -> timestamps_in_range l'.
Proof.
  unfold timestamps_in_range. intros Hp Hl. rewrite Forall_forall in *.
  intros r Hr. apply Hl. now apply (Permutation_in r (Permutation_sym Hp)).
Qed.

(** On timestamps in range the prepared rows ascend. *)
Lemma prepare_endpoint_ascending (rows : list endpoint_row) :
  timestamps_in_range rows -> ascending (prepare_endpoint rows).
Proof.
  intros Hr. unfold prepare_endpoint. destruct (is_df_sorted rows) eqn:E.
  - now apply is_df_sorted_iff.
  - apply sort_values_spec.
Qed.

Section DriverClaims.

Context (U : Utils) (K : Constants).

(** What [process_patient] does once the static attributes are read and
    the batch file is on disk. *)
Lemma process_patient_run (rt : Runtime) (configs : Configs) (b : Batch)
    (st : loop_state) (pid : Z) (m : bool) (v2 v4 : val) :
  mort_status_of (mort_lookup (df_static b) pid) = Ok m ->
  py_float (map s_apache2 (static_of (df_static b) pid)) = Ok v2 ->
  py_float (map s_apache4 (static_of (df_static b) pid)) = Ok v4 ->
  patient_path_exists rt = true ->
  let ep := filter (fun r => Z.eqb (e_pid r) pid) (df_all_endpoints b) in
  let pat := filter (fun r => Z.eqb (p_pid r) pid) (df_all_pats b) in
  process_patient U K rt configs b st pid =
  if (List.length pat =? 0)%nat || (List.length ep =? 0)%nat
  then rbind (logging_info_flush rt) (fun _ => Ok (skip st))
  else
    rbind (fst (gen_label U K rt configs (SBool m)
                  (merge_apache_groups U v2 v4 (APACHE_II_map configs)
                     (APACHE_IV_map configs))
                  pid
                  (mk_heap (mk_pat_frame pat)
                     (mk_endpoint_frame (prepare_endpoint ep) false))))
      (fun df_label =>
         match df_label with
         | None => Ok (skip st)
         | Some t =>
             if negb (df_nrows t =? List.length pat)%nat
             then Raise AssertionError
             else if debug_mode configs then Ok st
             else Ok (mk_loop_state (n_skipped_patients st)
                        (all_out_dfs st ++ [t]))
         end).
Proof.
  intros Hm H2 H4 Hpath ep pat. unfold process_patient.
  rewrite Hm, H2, H4, Hpath. reflexivity.
Qed.

(** C2 (as amended).  When the loop reaches a patient whose imputed and
    endpoint timestamps do not match one to one after sorting, the
    assembler raises ([AssertionError] for differing timestamps,
    [ValueError] for differing lengths or repeated endpoint timestamps);
    nothing catches the exception, so [label_gen_benchmark] ends with it:
    the remaining patients are not processed and no table is written. *)
Theorem alignment_failure_aborts_batch (rt : Runtime) (configs : Configs)
    (b : Batch) (pre post : list Z) (pid : Z) (st : loop_state)
    (m : bool) (v2 v4 : val) :
  unique (map p_pid (df_all_pats b)) = pre ++ pid :: post ->
  process_patients U K rt configs b (mk_loop_state 0 []) pre = Ok st ->
  mort_status_of (mort_lookup (df_static b) pid) = Ok m ->
  py_float (map s_apache2 (static_of (df_static b) pid)) = Ok v2 ->
  py_float (map s_apache4 (static_of (df_static b) pid)) = Ok v4 ->
  patient_path_exists rt = true ->
  filter (fun r => Z.eqb (p_pid r) pid) (df_all_pats b) <> [] ->
  filter (fun r => Z.eqb (e_pid r) pid) (df_all_endpoints b) <> [] ->
  map p_datetime (filter (fun r => Z.eqb (p_pid r) pid) (df_all_pats b))
  <> map e_datetime
       (prepare_endpoint
          (filter (fun r => Z.eqb (e_pid r) pid) (df_all_endpoints b))) ->
  exists e, (e = AssertionError \/ e = ValueError)
    /\ process_patient U K rt configs b st pid = Raise e
    /\ label_gen_benchmark U K rt configs b = Raise e.
Proof.
  intros Hpids Hpre Hm H2 H4 Hpath Hpat Hep Hne.
  set (pat := filter (fun r => Z.eqb (p_pid r) pid) (df_all_pats b)) in *.
  set (ep := filter (fun r => Z.eqb (e_pid r) pid) (df_all_endpoints b)) in *.
  assert (Hsorted_ne : prepare_endpoint ep <> []).
  { intros E. apply Hep. apply length_zero_iff_nil.
    rewrite <- prepare_endpoint_length, E. reflexivity. }
  destruct (gen_label_misaligned_raises U K rt configs (SBool m)
              (merge_apache_groups U v2 v4 (APACHE_II_map configs)
                 (APACHE_IV_map configs)) pid Hpat Hsorted_ne Hne)
    as [e [He Hgen]].
  assert (Hstep : process_patient U K rt configs b st pid = Raise e).
  { rewrite (process_patient_run rt configs b st pid Hm H2 H4 Hpath).
    fold pat ep.
    replace ((List.length pat =? 0)%nat || (List.length ep =? 0)%nat)
      with false.
    - rewrite Hgen. reflexivity.
    - symmetry. apply orb_false_iff.
      split; apply Nat.eqb_neq; intros E; apply length_zero_iff_nil in E;
        contradiction. }
  exists e. split; [exact He|]. split; [exact Hstep|].
  unfold label_gen_benchmark. rewrite Hpids, process_patients_app, Hpre.
  cbn [rbind process_patients]. rewrite Hstep. reflexivity.
Qed.

End DriverClaims.

Lemma alignment_failure_aborts_batch_witness :
  exists e, (e = AssertionError \/ e = ValueError)
    /\ process_patient Examples.U12 Examples.K12 Examples.rt_quiet
         Examples.cfg Examples.batch_misaligned (mk_loop_state 0 []) 7
       = Raise e
    /\ label_gen_benchmark Examples.U12 Examples.K12 Examples.rt_quiet
         Examples.cfg Examples.batch_misaligned = Raise e.
Proof.
  apply (@alignment_failure_aborts_batch Examples.U12 Examples.K12
           Examples.rt_quiet Examples.cfg Examples.batch_misaligned
           [] [8%Z] 7%Z (mk_loop_state 0 []) false (Num 1) NaN);
    try reflexivity; intros E; discriminate E.
Defined.

(** C2 (as stated) fails: in a batch of two patients whose first has the
    endpoint rows one step off the imputed rows, the assertion of
    [gen_label] ends [label_gen_benchmark]; the first patient is not
    counted as skipped and the second, who is complete, gets no table. *)
Lemma misaligned_patient_aborts_batch :
  map p_datetime (Examples.pat_of 7 3)
  <> map e_datetime (prepare_endpoint (Examples.shifted_endpoint 7 3))
  /\ label_gen_benchmark Examples.U12 Examples.K12 Examples.rt_quiet
       Examples.cfg Examples.batch_misaligned = Raise AssertionError
  /\ ~ (exists st out,
          label_gen_benchmark Examples.U12 Examples.K12 Examples.rt_quiet
            Examples.cfg Examples.batch_misaligned = Ok (st, out)).
Proof.
  split; [intros E; discriminate E|].
  split; [reflexivity|].
  intros [st [out E]]. discriminate E.
Qed.

(* ------------------------------------------------------------------ *)
(** ** Empty slices and static attributes *)

Section SkipsAndAttributes.

Context (U : Utils) (K : Constants).

(** With an empty frame [gen_label] logs and returns "no label"; the
    frames are left as they are. *)
Lemma gen_label_empty (rt : Runtime) (configs : Configs) (m a : scalar)
    (pid : Z) (h : heap) :
  pat_rows (df_pat h) = [] \/ ep_rows (df_endpoint h) = [] ->
  gen_label U K rt configs m a pid h
  = (rbind (logging_info_flush rt) (fun _ => Ok None), h).
Proof.
  intros Hempty. rewrite gen_label_run.
  replace ((List.length (pat_rows (df_pat h)) =? 0)%nat
           || (List.length (ep_rows (df_endpoint h)) =? 0)%nat) with true.
  - reflexivity.
  - symmetry. apply orb_true_iff.
    destruct Hempty as [-> | ->]; [left | right]; reflexivity.
Qed.

(** While INFO is disabled, an empty frame gives "no label" and the driver
    counts a patient with an empty slice as skipped, appending nothing. *)
Lemma empty_slice_skipped_when_info_disabled (rt : Runtime)
    (configs : Configs) (b : Batch) (st : loop_state) (pid : Z) (m : bool)
    (v2 v4 : val) (ms a : scalar) (h : heap) :
  info_enabled rt = false ->
  (pat_rows (df_pat h) = [] \/ ep_rows (df_endpoint h) = [] ->
   gen_label U K rt configs ms a pid h = (Ok None, h))
  /\ (mort_status_of (mort_lookup (df_static b) pid) = Ok m ->
      py_float (map s_apache2 (static_of (df_static b) pid)) = Ok v2 ->
      py_float (map s_apache4 (static_of (df_static b) pid)) = Ok v4 ->
      patient_path_exists rt = true ->
      filter (fun r => Z.eqb (p_pid r) pid) (df_all_pats b) = []
      \/ filter (fun r => Z.eqb (e_pid r) pid) (df_all_endpoints b) = [] ->
      process_patient U K rt configs b st pid
      = Ok (mk_loop_state (S (n_skipped_patients st)) (all_out_dfs st))).
Proof.
  intros Hquiet. split.
  - intros Hempty. rewrite gen_label_empty by exact Hempty.
    unfold logging_info_flush. rewrite Hquiet. reflexivity.
  - intros Hm H2 H4 Hpath Hempty.
    rewrite (process_patient_run U K rt configs b st pid Hm H2 H4 Hpath).
    replace ((List.length
                (filter (fun r => Z.eqb (p_pid r) pid) (df_all_pats b)) =? 0)%nat
             || (List.length
                   (filter (fun r => Z.eqb (e_pid r) pid)
                      (df_all_endpoints b)) =? 0)%nat) with true.
    + unfold logging_info_flush. rewrite Hquiet. reflexivity.
    + symmetry. apply orb_true_iff.
      destruct Hempty as [-> | ->]; [left | right]; reflexivity.
Qed.

(** A severity score that [float] rejects ends the processing of the
    patient with the exception. *)
Lemma severity_score_error_propagates (rt : Runtime) (configs : Configs)
    (b : Batch) (st : loop_state) (pid : Z) (m : bool) (e : exn) :
  mort_status_of (mort_lookup (df_static b) pid) = Ok m ->
  py_float (map s_apache2 (static_of (df_static b) pid)) = Raise e ->
  process_patient U K rt configs b st pid = Raise e.
Proof.
  intros Hm H2. unfold process_patient. rewrite Hm, H2. reflexivity.
Qed.

End SkipsAndAttributes.

(** C3: the code at a patient without endpoint rows.  With the root logger
    enabled for INFO, [gen_label] on an empty endpoint frame raises
    [TypeError] (line 61) instead of returning "no label", and the driver
    raises it at line 175, ending [label_gen_benchmark], instead of
    counting the patient as skipped; with INFO disabled the patient is
    skipped and only the other patient's table is kept. *)
Theorem empty_slice_raises_when_info_enabled :
  gen_label Examples.U12 Examples.K12 Examples.rt_info Examples.cfg
    (SBool false) (SVal NaN) 7
    (mk_heap (mk_pat_frame (Examples.pat_of 7 3)) (mk_endpoint_frame [] false))
  = (Raise TypeError,
     mk_heap (mk_pat_frame (Examples.pat_of 7 3)) (mk_endpoint_frame [] false))
  /\ label_gen_benchmark Examples.U12 Examples.K12 Examples.rt_info
       Examples.cfg Examples.batch_no_endpoint = Raise TypeError
  /\ exists st out,
       label_gen_benchmark Examples.U12 Examples.K12 Examples.rt_quiet
         Examples.cfg Examples.batch_no_endpoint = Ok (st, Some out)
       /\ n_skipped_patients st = 1%nat
       /\ List.length (all_out_dfs st) = 1%nat
       /\ df_lookup "patientid" out = Some (ColZ [8; 8; 8]%Z).
Proof.
  split; [reflexivity|]. split; [reflexivity|].
  eexists. eexists. split; [vm_compute; reflexivity|].
  split; [reflexivity|]. split; reflexivity.
Qed.

(** C7: the code at a patient whose APACHE II cell is [None].  [float] of
    the cell raises [TypeError] outside any [try] (line 151): the patient
    is not processed with a default and [label_gen_benchmark] ends with
    the exception, although the errors of the discharge-status lookup are
    turned into the default [False]. *)
Theorem severity_score_error_aborts_batch :
  process_patient Examples.U12 Examples.K12 Examples.rt_quiet Examples.cfg
    Examples.batch_bad_apache (mk_loop_state 0 []) 7 = Raise TypeError
  /\ label_gen_benchmark Examples.U12 Examples.K12 Examples.rt_quiet
       Examples.cfg Examples.batch_bad_apache = Raise TypeError
  /\ mort_status_of (Raise TypeError) = Ok false
  /\ mort_status_of (Raise ValueError) = Ok false.
Proof. repeat split. Qed.

(** The cases of [mort_status_of]: true exactly for a discharge status
    that reads ["dead"], false for any other value and for a lookup that
    raises [ValueError] or [TypeError]. *)
Lemma mort_status_of_cases :
  (forall lookup : result pyval,
     mort_status_of lookup = Ok true
     <-> exists v, lookup = Ok v /\ py_str v = "dead"%string)
  /\ (forall v, py_str v <> "dead"%string -> mort_status_of (Ok v) = Ok false)
  /\ mort_status_of (Raise ValueError) = Ok false
  /\ mort_status_of (Raise TypeError) = Ok false
  /\ (forall df_static pid r rest,
        static_of df_static pid = r :: rest ->
        mort_status_of (mort_lookup df_static pid)
        = Ok (String.eqb (py_str (s_discharge r)) "dead")).
Proof.
  split; [|split; [|split; [|split]]].
  - intros lookup. split.
    + destruct lookup as [v | e]; simpl.
      * intros H. exists v. split; [reflexivity|].
        apply String.eqb_eq. now injection H.
      * destruct e; discriminate.
    + intros [v [-> Hv]]. simpl. f_equal. now apply String.eqb_eq.
  - intros v Hv. simpl. f_equal. now apply String.eqb_neq.
  - reflexivity.
  - reflexivity.
  - intros df_static pid r rest Hsel. unfold mort_lookup. rewrite Hsel.
    reflexivity.
Qed.

(* ------------------------------------------------------------------ *)
(** ** The table built by [gen_label] *)

Lemma dict_set_fresh (d : pydict) (k : string) (v : dict_value) :
  ~ In k (map fst d) -> dict_set d k v = d ++ [(k, v)].
Proof.
  induction d as [|[k' v'] d IH]; intros Hk; [reflexivity|].
  simpl in *. destruct (String.eqb k' k) eqn:E.
  - apply String.eqb_eq in E. tauto.
  - f_equal. apply IH. tauto.
Qed.

Lemma df_lookup_in (t : DataFrame) (k : string) (c : column) :
  NoDup (map fst t) -> In (k, c) t -> df_lookup k t = Some c.
Proof.
  induction t as [|[k' c'] t IH]; intros Hnd Hin; [contradiction|].
  simpl in *. inversion Hnd as [|? ? Hk' Hnd']; subst.
  destruct Hin as [E | Hin].
  - injection E as -> ->. now rewrite String.eqb_refl.
  - destruct (String.eqb k' k) eqn:E.
    + apply String.eqb_eq in E. subst k'.
      exfalso. apply Hk'. apply (in_map fst) in Hin. exact Hin.
    + now apply IH.
Qed.

Lemma map_column_combine (ks : list string) (ms : list (list val)) :
  map (fun kv : string * dict_value => (fst kv, dict_value_column (snd kv)))
      (combine ks (map VArray ms))
  = combine ks (map ColF ms).
Proof.
  revert ks. induction ms as [|x ms IH]; intros [|k ks]; simpl;
    try reflexivity.
  now rewrite IH.
Qed.

Section TableFacts.

Context (U : Utils) (K : Constants).

(** Storing channels under fresh names appends them in order. *)
Lemma store_channels_fresh (mask : list bool) (chs : list (string * list val)) :
  forall (d d' : pydict),
  NoDup (map fst d ++ map fst chs) ->
  store_channels U mask d chs = Ok d' ->
  exists ms,
    Forall2 (fun ch m => convolve_hr U (snd ch) mask = Ok m) chs ms
    /\ d' = d ++ combine (map fst chs) (map VArray ms).
Proof.
  induction chs as [|[k raw] chs IH]; intros d d' Hnd Hst.
  - simpl in Hst. injection Hst as <-. exists []. split; [constructor|].
    now rewrite app_nil_r.
  - cbn [store_channels] in Hst. unfold store_channel in Hst.
    cbn [fst snd] in Hst.
    destruct (convolve_hr U raw mask) as [m|e] eqn:Em;
      cbn [rbind] in Hst; [|discriminate].
    assert (Hk : ~ In k (map fst d)).
    { intros Hin. apply NoDup_remove_2 in Hnd. apply Hnd.
      apply in_or_app. now left. }
    rewrite (@dict_set_fresh d k (VArray m) Hk) in Hst.
    apply IH in Hst.
    + destruct Hst as [ms [Hall ->]]. exists (m :: ms). split.
      * constructor; [exact Em | exact Hall].
      * rewrite <- app_assoc. reflexivity.
    + rewrite map_app, <- app_assoc. cbn [map fst app].
      cbn [map fst] in Hnd. exact Hnd.
Qed.

(** The shape of the table [gen_label] returns when the column names are
    pairwise distinct. *)
Lemma gen_label_table (rt : Runtime) (configs : Configs) (m a : scalar)
    (pid : Z) (h : heap) (t : DataFrame) :
  NoDup (column_names K configs) ->
  fst (gen_label U K rt configs m a pid h) = Ok (Some t) ->
  let pat := pat_rows (df_pat h) in
  let ep := ep_rows (df_endpoint h) in
  let mask := get_hr_status U (map p_hr_cum pat) in
  map p_datetime pat = map e_datetime ep
  /\ exists ms,
       Forall2 (fun ch x => convolve_hr U (snd ch) mask = Ok x)
         (raw_channels U K pat ep m a) ms
       /\ Forall (fun x => List.length x = List.length pat) ms
       /\ t = [ (abs_datetime_key configs, ColZ (map p_datetime pat));
                (rel_datetime_key configs, ColF (map p_rel pat));
                (patient_id_key configs, ColZ (map p_pid pat)) ]
              ++ combine (map fst (raw_channels U K pat ep m a)) (map ColF ms).
Proof.
  intros Hnd Hgen pat ep mask. rewrite gen_label_run in Hgen.
  fold pat ep in Hgen.
  destruct ((List.length pat =? 0)%nat || (List.length ep =? 0)%nat).
  { cbn [fst] in Hgen. destruct (logging_info_flush rt); discriminate. }
  destruct (ep_indexed (df_endpoint h)); [discriminate|].
  destruct (has_dup (map e_datetime ep)); [discriminate|].
  cbn [fst] in Hgen.
  destruct (assert_aligned (map p_datetime pat) (map e_datetime ep))
    as [[]|e] eqn:Eal; [|discriminate].
  apply assert_aligned_ok in Eal. split; [exact Eal|].
  cbn [rbind] in Hgen. unfold assemble in Hgen. fold mask in Hgen.
  assert (Hnames : map fst (raw_channels U K pat ep m a)
                   = [MORTALITY_NAME K; CIRC_FAILURE_NAME K;
                      RESP_FAILURE_NAME K; URINE_REG_NAME K;
                      URINE_BINARY_NAME K; PHENOTYPING_NAME K; LOS_NAME K])
    by reflexivity.
  remember (raw_channels U K pat ep m a) as chs eqn:Echs. clear Echs.
  assert (Hnd3 : NoDup [abs_datetime_key configs; rel_datetime_key configs;
                        patient_id_key configs]).
  { unfold column_names in Hnd.
    change (NoDup ([abs_datetime_key configs; rel_datetime_key configs;
                    patient_id_key configs] ++
                   [MORTALITY_NAME K; CIRC_FAILURE_NAME K; RESP_FAILURE_NAME K;
                    URINE_REG_NAME K; URINE_BINARY_NAME K; PHENOTYPING_NAME K;
                    LOS_NAME K])) in Hnd.
    now apply NoDup_app_remove_r in Hnd. }
  rewrite (@dict_set_fresh [] (abs_datetime_key configs) _ (fun H => H))
    in Hgen.
  cbn [app] in Hgen.
  rewrite (@dict_set_fresh [_] (rel_datetime_key configs)) in Hgen.
  2:{ cbn [map fst]. inversion Hnd3 as [|? ? Hn _]; subst.
      intros [E | []]. apply Hn. now left. }
  cbn [app] in Hgen.
  rewrite (@dict_set_fresh [_; _] (patient_id_key configs)) in Hgen.
  2:{ cbn [map fst app]. inversion Hnd3 as [|? ? Hn Hnd2]; subst.
      inversion Hnd2 as [|? ? Hn2 _]; subst.
      intros [E | [E | []]]; [apply Hn; right; now left | apply Hn2; now left]. }
  cbn [app] in Hgen.
  destruct (store_channels U mask _ chs) as [d|e] eqn:Est;
    cbn [rbind] in Hgen; [|discriminate].
  apply store_channels_fresh in Est; [|rewrite Hnames; exact Hnd].
  destruct Est as [ms [Hall ->]].
  destruct (pd_DataFrame _) as [t'|e] eqn:Edf;
    cbn [rbind] in Hgen; [|discriminate].
  injection Hgen as <-.
  unfold pd_DataFrame in Edf.
  cbn [index_length find app snd is_series dict_value_column col_len] in Edf.
  destruct (forallb _ _) eqn:Eall; [|discriminate]. injection Edf as <-.
  exists ms. split; [exact Hall|]. split.
  - cbn [forallb] in Eall. rewrite !andb_true_iff in Eall.
    destruct Eall as [_ [_ [_ Eall]]].
    rewrite forallb_forall in Eall. apply Forall_forall. intros x Hx.
    unfold pat. rewrite <- (length_map p_datetime).
    pose proof (Forall2_length Hall) as Hlen.
    destruct (In_nth ms x [] Hx) as [i [Hi Hnth]].
    apply Nat.eqb_eq.
    apply (Eall (nth i (map fst chs) ""%string, VArray x)).
    rewrite <- Hnth, <- (map_nth VArray), <- combine_nth
      by (rewrite !length_map; exact Hlen).
    apply nth_In. rewrite length_combine, !length_map. lia.
  - cbn [map fst snd dict_value_column app]. do 3 f_equal.
    apply map_column_combine.
Qed.

End TableFacts.

Section TableClaims.

Context (U : Utils) (K : Constants).

Ltac invert_Forall2 :=
  repeat match goal with
         | H : Forall2 _ (_ :: _) _ |- _ => inversion H; subst; clear H
         | H : Forall2 _ [] _ |- _ => inversion H; subst; clear H
         end.

Ltac invert_Forall :=
  repeat match goal with
         | H : Forall _ (_ :: _) |- _ => inversion H; subst; clear H
         | H : Forall _ [] |- _ => clear H
         end.

(** Every stored channel is found under its name, masked with the
    validity mask of the heart-rate counter, with one entry per row. *)
Lemma gen_label_channels (rt : Runtime) (configs : Configs) (m a : scalar)
    (pid : Z) (h : heap) (t : DataFrame) :
  NoDup (column_names K configs) ->
  fst (gen_label U K rt configs m a pid h) = Ok (Some t) ->
  let pat := pat_rows (df_pat h) in
  let ep := ep_rows (df_endpoint h) in
  let mask := get_hr_status U (map p_hr_cum pat) in
  map fst t = column_names K configs
  /\ Forall (fun kc => col_len (snd kc) = List.length pat) t
  /\ forall name raw, In (name, raw) (raw_channels U K pat ep m a) ->
       exists out, df_lookup name t = Some (ColF out)
                   /\ convolve_hr U raw mask = Ok out
                   /\ List.length out = List.length pat.
Proof.
  intros Hnd Hgen pat ep mask.
  destruct (@gen_label_table U K rt configs m a pid h t Hnd Hgen)
    as [_ [ms [Hall [Hlen Ht]]]].
  fold pat ep mask in Hall, Hlen, Ht.
  subst t. unfold raw_channels in *. invert_Forall2. invert_Forall.
  cbn [map fst combine app] in *.
  split; [reflexivity|]. split.
  - repeat constructor; cbn [snd col_len];
      try (now rewrite length_map); assumption.
  - intros name raw Hin. cbn [In] in Hin.
    repeat match type of Hin with
           | _ \/ _ => destruct Hin as [Hin | Hin]
           end;
      try contradiction; injection Hin as <- <-;
      eexists; (split; [apply df_lookup_in; [exact Hnd | cbn [In]; tauto] |]);
      (split; [eassumption | assumption]).
Qed.

(** C4.  A table returned by [gen_label] has the columns named by the
    three configuration keys and the seven label names, in this order,
    and each column has as many entries as the imputed frame has rows, so
    the row-count assertion of the driver (line 192) holds. *)
Theorem output_table_shape (rt : Runtime) (configs : Configs)
    (m a : scalar) (pid : Z) (h : heap) (t : DataFrame) :
  NoDup (column_names K configs) ->
  fst (gen_label U K rt configs m a pid h) = Ok (Some t) ->
  map fst t = column_names K configs
  /\ Forall (fun kc => col_len (snd kc) = List.length (pat_rows (df_pat h))) t
  /\ df_nrows t = List.length (pat_rows (df_pat h))
  /\ negb (df_nrows t =? List.length (pat_rows (df_pat h)))%nat = false.
Proof.
  intros Hnd Hgen.
  destruct (@gen_label_channels rt configs m a pid h t Hnd Hgen)
    as [Hnames [Hcols _]].
  split; [exact Hnames|]. split; [exact Hcols|].
  assert (Hrows : df_nrows t = List.length (pat_rows (df_pat h))).
  { destruct t as [|[k c] t']; [discriminate Hnames|].
    inversion Hcols; subst. assumption. }
  split; [exact Hrows|]. rewrite Hrows, Nat.eqb_refl. reflexivity.
Qed.

(** C5.  In a table returned by [gen_label], the mortality and the
    phenotyping column come from [unique_label_at_hours] at 24 hours, the
    two failure columns from [transition_to_failure] with the window
    [[0, 12)] hours, and the two urine columns from [future_urine_output]
    with 2 hours. *)
Theorem channels_use_default_bounds (rt : Runtime) (configs : Configs)
    (m a : scalar) (pid : Z) (h : heap) (t : DataFrame) :
  NoDup (column_names K configs) ->
  fst (gen_label U K rt configs m a pid h) = Ok (Some t) ->
  let pat := pat_rows (df_pat h) in
  let ep := ep_rows (df_endpoint h) in
  let mask := get_hr_status U (map p_hr_cum pat) in
  let urine := future_urine_output U (map p_vm24 pat) (map p_urine_cum pat)
                 (map p_vm131 pat) 2 in
  masked_column U t (MORTALITY_NAME K)
    (unique_label_at_hours U (List.length pat) m 24) mask
  /\ masked_column U t (PHENOTYPING_NAME K)
       (unique_label_at_hours U (List.length pat) a 24) mask
  /\ masked_column U t (CIRC_FAILURE_NAME K)
       (transition_to_failure U (map e_circ ep) 0 12) mask
  /\ masked_column U t (RESP_FAILURE_NAME K)
       (transition_to_failure U (get_any_resp_label U (map e_resp ep)) 0 12)
       mask
  /\ masked_column U t (URINE_REG_NAME K) (fst urine) mask
  /\ masked_column U t (URINE_BINARY_NAME K) (snd urine) mask.
Proof.
  intros Hnd Hgen pat ep mask urine.
  destruct (@gen_label_channels rt configs m a pid h t Hnd Hgen)
    as [_ [_ Hch]].
  fold pat ep mask in Hch.
  assert (Hcol : forall name raw,
             In (name, raw) (raw_channels U K pat ep m a) ->
             masked_column U t name raw mask).
  { intros name raw Hin. destruct (Hch name raw Hin) as [out [Hl [Hc _]]].
    exists out. split; assumption. }
  unfold raw_channels in Hcol. cbv zeta in Hcol.
  rewrite length_map in Hcol. subst urine.
  repeat split; apply Hcol; cbn [In]; tauto.
Qed.

End TableClaims.

Lemma column_names_distinct :
  NoDup (column_names Examples.K12 Examples.cfg).
Proof.
  unfold column_names. cbn.
  repeat (constructor; [cbn [In]; intuition discriminate|]).
  constructor.
Qed.

Lemma output_table_shape_witness :
  exists t,
    fst (gen_label Examples.U12 Examples.K12 Examples.rt_quiet Examples.cfg
           (SBool true) (SVal NaN) 7 (Examples.heap_of 7 3)) = Ok (Some t)
    /\ map fst t = column_names Examples.K12 Examples.cfg
    /\ df_nrows t = 3%nat.
Proof.
  eexists. split; [vm_compute; reflexivity|].
  match goal with
  | |- map fst ?t = _ /\ _ =>
      destruct (@output_table_shape Examples.U12 Examples.K12
                  Examples.rt_quiet Examples.cfg (SBool true) (SVal NaN) 7
                  (Examples.heap_of 7 3) t column_names_distinct
                  eq_refl) as [Hn [_ [Hr _]]]
  end.
  split; [exact Hn | exact Hr].
Defined.

Lemma channels_use_default_bounds_witness :
  exists t,
    fst (gen_label Examples.U12 Examples.K12 Examples.rt_quiet Examples.cfg
           (SBool true) (SVal NaN) 7 (Examples.heap_of 7 3)) = Ok (Some t)
    /\ masked_column Examples.U12 t (MORTALITY_NAME Examples.K12)
         (unique_label_at_hours Examples.U12 3 (SBool true) 24)
         (get_hr_status Examples.U12 [1; 2; 3]%Z).
Proof.
  eexists. split; [vm_compute; reflexivity|].
  match goal with
  | |- masked_column _ ?t _ _ _ =>
      destruct (@channels_use_default_bounds Examples.U12 Examples.K12
                  Examples.rt_quiet Examples.cfg (SBool true) (SVal NaN) 7
                  (Examples.heap_of 7 3) t column_names_distinct
                  eq_refl) as [Hm _]
  end.
  exact Hm.
Defined.

(* ------------------------------------------------------------------ *)
(** ** Masking of the channels *)

Lemma mask_with_length (raw : list val) (mask : list bool) :
  List.length raw = List.length mask ->
  List.length (SpecUtils.mask_with raw mask) = List.length raw.
Proof.
  revert mask. induction raw as [|v raw IH]; intros [|b mask] Hlen;
    simpl in *; try reflexivity; try discriminate.
  f_equal. apply IH. now injection Hlen.
Qed.

Lemma mask_with_nth (raw : list val) (mask : list bool) (i : nat) :
  List.length raw = List.length mask ->
  (i < List.length raw)%nat ->
  nth i (SpecUtils.mask_with raw mask) NaN
  = if nth i mask false then nth i raw NaN else NaN.
Proof.
  revert mask i. induction raw as [|v raw IH]; intros [|b mask] i Hlen Hi;
    simpl in *; try lia; try discriminate.
  destruct i as [|i]; [reflexivity|].
  apply IH; [now injection Hlen | lia].
Qed.

Lemma unique_label_at_hours_nth (sph : positive) (L : nat) (s : scalar)
    (hours : Z) (i : nat) :
  (i < L)%nat ->
  nth i (SpecUtils.unique_label_at_hours sph L s hours) NaN
  = if (i <? SpecUtils.hours_to_steps sph hours)%nat then NaN
    else SpecUtils.scalar_val s.
Proof.
  intros Hi. unfold SpecUtils.unique_label_at_hours.
  set (f := fun t : nat =>
              if (t <? SpecUtils.hours_to_steps sph hours)%nat then NaN
              else SpecUtils.scalar_val s).
  rewrite (nth_indep _ NaN (f 0%nat)) by now rewrite length_map, length_seq.
  rewrite map_nth, seq_nth by exact Hi. reflexivity.
Qed.

Lemma Forall_nth_known (l : list val) (i : nat) :
  Forall (fun v => v <> NaN) l -> (i < List.length l)%nat ->
  nth i l NaN <> NaN.
Proof.
  intros Hall Hi. rewrite Forall_forall in Hall. apply Hall. now apply nth_In.
Qed.

Section MaskingClaim.

Context (U : Utils) (K : Constants).

(** What the masking operator leaves of a channel that passed it. *)
Lemma gen_label_masked (rt : Runtime) (configs : Configs)
    (m a : scalar) (pid : Z) (h : heap) (t : DataFrame) :
  NoDup (column_names K configs) ->
  convolve_hr U = SpecUtils.convolve_hr ->
  fst (gen_label U K rt configs m a pid h) = Ok (Some t) ->
  let pat := pat_rows (df_pat h) in
  let ep := ep_rows (df_endpoint h) in
  let mask := get_hr_status U (map p_hr_cum pat) in
  forall name raw, In (name, raw) (raw_channels U K pat ep m a) ->
    exists out,
      df_lookup name t = Some (ColF out)
      /\ out = SpecUtils.mask_with raw mask
      /\ List.length out = List.length pat
      /\ List.length raw = List.length pat
      /\ forall i, (i < List.length pat)%nat ->
           nth i out NaN = if nth i mask false then nth i raw NaN else NaN.
Proof.
  intros Hnd Hconv Hgen pat ep mask.
  destruct (@gen_label_channels U K rt configs m a pid h t Hnd Hgen)
    as [_ [_ Hch]].
  fold pat ep mask in Hch.
  intros name raw Hin. destruct (Hch name raw Hin) as [out [Hl [Hc Hlen]]].
  rewrite Hconv in Hc. unfold SpecUtils.convolve_hr in Hc.
  destruct (List.length raw =? List.length mask)%nat eqn:E;
    [|discriminate].
  apply Nat.eqb_eq in E. injection Hc as <-.
  rewrite (mask_with_length _ _ E) in Hlen.
  exists (SpecUtils.mask_with raw mask).
  split; [exact Hl|]. split; [reflexivity|].
  split; [now rewrite mask_with_length|]. split; [exact Hlen|].
  intros i Hi. apply mask_with_nth; [exact E | lia].
Qed.

Lemma masked_unknown_iff (b : bool) (v : val) :
  (if b then v else NaN) = NaN <-> b = false \/ v = NaN.
Proof.
  destruct b.
  - split; [intros H; now right | intros [H | H]; [discriminate | exact H]].
  - split; [intros _; now left | reflexivity].
Qed.

Lemma horizon_unknown_iff (i n : nat) (v : val) :
  (if (i <? n)%nat then NaN else v) = NaN <-> (i < n)%nat \/ v = NaN.
Proof.
  destruct (i <? n)%nat eqn:E.
  - apply Nat.ltb_lt in E. split; [intros _; now left | reflexivity].
  - apply Nat.ltb_ge in E.
    split; [intros H; now right | intros [H | H]; [lia | exact H]].
Qed.

(** C1 (as amended).  Every label column of a table returned by
    [gen_label] is the masking operator applied to the unmasked channel
    with the validity mask computed from the heart-rate counter, so an
    entry is unknown exactly when the mask is false there or the unmasked
    channel is already unknown there.  Channel by channel, an entry at
    timestep [i] is unknown exactly when the mask is false at [i] or
    - mortality, phenotyping: [i] precedes the 24-hour horizon or the
      scalar handed in is itself unknown, which a boolean discharge
      outcome never is;
    - remaining length of stay: never otherwise;
    - circulatory and respiratory failure: never otherwise, when the
      transition detector yields a binary array;
    - urine regression and urine binary: the unmasked regression target
      is unknown at [i], for the binary column when the binary target is
      unknown exactly where the regression target is. *)
Theorem channels_masked_by_hr_validity (rt : Runtime) (configs : Configs)
    (m a : scalar) (pid : Z) (h : heap) (t : DataFrame) :
  NoDup (column_names K configs) ->
  convolve_hr U = SpecUtils.convolve_hr ->
  unique_label_at_hours U
  = SpecUtils.unique_label_at_hours (STEPS_PER_HOUR K) ->
  fst (gen_label U K rt configs m a pid h) = Ok (Some t) ->
  let pat := pat_rows (df_pat h) in
  let ep := ep_rows (df_endpoint h) in
  let mask := get_hr_status U (map p_hr_cum pat) in
  let horizon := (24 * Pos.to_nat (STEPS_PER_HOUR K))%nat in
  let urine :=
    future_urine_output U (map p_vm24 pat) (map p_urine_cum pat)
      (map p_vm131 pat) 2 in
  let unknown_iff (name : string) (cause : nat -> Prop) :=
    exists out,
      df_lookup name t = Some (ColF out)
      /\ List.length out = List.length pat
      /\ forall i, (i < List.length pat)%nat ->
           (nth i out NaN = NaN <-> nth i mask false = false \/ cause i) in
  (forall name raw, In (name, raw) (raw_channels U K pat ep m a) ->
     exists out,
       df_lookup name t = Some (ColF out)
       /\ out = SpecUtils.mask_with raw mask
       /\ List.length out = List.length pat
       /\ forall i, (i < List.length pat)%nat ->
            (nth i out NaN = NaN
             <-> nth i mask false = false \/ nth i raw NaN = NaN))
  /\ unknown_iff (MORTALITY_NAME K)
       (fun i => (i < horizon)%nat \/ SpecUtils.scalar_val m = NaN)
  /\ (forall b, m = SBool b ->
      unknown_iff (MORTALITY_NAME K) (fun i => (i < horizon)%nat))
  /\ unknown_iff (PHENOTYPING_NAME K)
       (fun i => (i < horizon)%nat \/ SpecUtils.scalar_val a = NaN)
  /\ unknown_iff (LOS_NAME K) (fun _ => False)
  /\ (never_unknown (transition_to_failure U) ->
      unknown_iff (CIRC_FAILURE_NAME K) (fun _ => False)
      /\ unknown_iff (RESP_FAILURE_NAME K) (fun _ => False))
  /\ unknown_iff (URINE_REG_NAME K) (fun i => nth i (fst urine) NaN = NaN)
  /\ (binary_follows_regression (future_urine_output U) ->
      unknown_iff (URINE_BINARY_NAME K)
        (fun i => nth i (fst urine) NaN = NaN)).
Proof.
  intros Hnd Hconv Hlab Hgen pat ep mask horizon urine unknown_iff.
  assert (Hall := @gen_label_masked rt configs m a pid h t Hnd Hconv Hgen).
  cbv zeta in Hall. fold pat ep mask in Hall.
  assert (Hhor : SpecUtils.hours_to_steps (STEPS_PER_HOUR K) 24 = horizon)
    by (unfold SpecUtils.hours_to_steps, horizon; lia).
  assert (Hch : forall name raw (cause : nat -> Prop),
             In (name, raw) (raw_channels U K pat ep m a) ->
             (forall i, (i < List.length pat)%nat ->
                (nth i raw NaN = NaN <-> cause i)) ->
             unknown_iff name cause).
  { intros name raw cause Hin Hcause.
    destruct (Hall name raw Hin) as [out [Hl [_ [Hlen [_ Hnth]]]]].
    exists out. split; [exact Hl|]. split; [exact Hlen|].
    intros i Hi. rewrite (Hnth i Hi), masked_unknown_iff.
    now rewrite (Hcause i Hi). }
  assert (Hstatic : forall s i, (i < List.length pat)%nat ->
             (nth i (unique_label_at_hours U (List.length (map p_rel pat))
                       s 24) NaN = NaN
              <-> (i < horizon)%nat \/ SpecUtils.scalar_val s = NaN)).
  { intros s i Hi.
    rewrite Hlab, length_map, unique_label_at_hours_nth by exact Hi.
    rewrite Hhor. apply horizon_unknown_iff. }
  split; [|split; [|split; [|split; [|split; [|split; [|split]]]]]].
  - intros name raw Hin.
    destruct (Hall name raw Hin) as [out [Hl [Ho [Hlen [_ Hnth]]]]].
    exists out. split; [exact Hl|]. split; [exact Ho|].
    split; [exact Hlen|]. intros i Hi. rewrite (Hnth i Hi).
    apply masked_unknown_iff.
  - eapply Hch; [now left|]. intros i Hi. now apply Hstatic.
  - intros b ->. eapply Hch; [now left|]. intros i Hi.
    rewrite (Hstatic (SBool b) i Hi).
    split; [|intros H; now left].
    intros [H | H]; [exact H | destruct b; discriminate H].
  - eapply Hch; [do 5 right; now left|]. intros i Hi. now apply Hstatic.
  - eapply Hch; [do 6 right; now left|]. intros i Hi.
    rewrite length_map, rem_los_raw_nth by exact Hi.
    split; [discriminate | contradiction].
  - intros Hbin. split.
    + destruct (Hall (CIRC_FAILURE_NAME K)
                  (transition_to_failure U (map e_circ ep) 0 12))
        as [_ [_ [_ [_ [Hraw _]]]]]; [right; now left|].
      eapply Hch; [right; now left|]. intros i Hi.
      split; [|contradiction]. apply Forall_nth_known; [apply Hbin | lia].
    + destruct (Hall (RESP_FAILURE_NAME K)
                  (transition_to_failure U
                     (get_any_resp_label U (map e_resp ep)) 0 12))
        as [_ [_ [_ [_ [Hraw _]]]]]; [do 2 right; now left|].
      eapply Hch; [do 2 right; now left|]. intros i Hi.
      split; [|contradiction]. apply Forall_nth_known; [apply Hbin | lia].
  - eapply Hch; [do 3 right; now left|]. intros i Hi. reflexivity.
  - intros Hur. eapply Hch; [do 4 right; now left|]. intros i Hi.
    apply Hur.
Qed.

End MaskingClaim.

(** The transforms modelled from the design document meet the two side
    conditions of C1. *)
Lemma spec_transition_never_unknown (sph : positive) :
  never_unknown (SpecUtils.transition_to_failure sph).
Proof.
  intros col l r. unfold SpecUtils.transition_to_failure.
  apply Forall_forall. intros v Hin. apply in_map_iff in Hin.
  destruct Hin as [i [<- _]].
  destruct (existsb _ _); discriminate.
Qed.

Lemma spec_urine_binary_follows_regression (sph : positive) :
  binary_follows_regression (SpecUtils.future_urine_output sph).
Proof.
  intros u m w r i. unfold SpecUtils.future_urine_output. cbn [fst snd].
  match goal with |- nth i (map ?f ?reg) NaN = NaN <-> _ =>
    set (g := f); set (l := reg) end.
  change NaN with (g NaN) at 1. rewrite map_nth.
  destruct (nth i l NaN) as [|q]; cbn.
  - tauto.
  - destruct (Qle_bool _ _); split; discriminate.
Qed.

Lemma channels_masked_by_hr_validity_witness :
  exists t,
    fst (gen_label Examples.U12 Examples.K12 Examples.rt_quiet Examples.cfg
           (SBool true) (SVal NaN) 7 MoreExamples.heap_stale) = Ok (Some t)
    /\ (exists out,
          df_lookup (MORTALITY_NAME Examples.K12) t = Some (ColF out)
          /\ nth 287 out NaN = NaN
          /\ nth 288 out NaN <> NaN
          /\ nth 289 out NaN = NaN)
    /\ (exists out,
          df_lookup (LOS_NAME Examples.K12) t = Some (ColF out)
          /\ nth 0 out NaN <> NaN
          /\ nth 289 out NaN = NaN)
    /\ (exists out,
          df_lookup (CIRC_FAILURE_NAME Examples.K12) t = Some (ColF out)
          /\ nth 0 out NaN <> NaN
          /\ nth 289 out NaN = NaN).
Proof.
  destruct (fst (gen_label Examples.U12 Examples.K12 Examples.rt_quiet
                   Examples.cfg (SBool true) (SVal NaN) 7
                   MoreExamples.heap_stale)) as [[t|]|e] eqn:E;
    [| vm_compute in E; discriminate E | vm_compute in E; discriminate E].
  exists t. split; [reflexivity|].
  destruct (@channels_masked_by_hr_validity Examples.U12 Examples.K12
              Examples.rt_quiet Examples.cfg (SBool true) (SVal NaN) 7
              MoreExamples.heap_stale t column_names_distinct
              eq_refl eq_refl E)
    as [_ [_ [Hmort [_ [Hlos [Hfail _]]]]]].
  assert (Hlen : List.length (pat_rows (df_pat MoreExamples.heap_stale))
                 = 290%nat) by reflexivity.
  assert (Hm0 : nth 0 (get_hr_status Examples.U12
                  (map p_hr_cum (pat_rows (df_pat MoreExamples.heap_stale))))
                  false = true) by (vm_compute; reflexivity).
  assert (Hm288 : nth 288 (get_hr_status Examples.U12
                  (map p_hr_cum (pat_rows (df_pat MoreExamples.heap_stale))))
                  false = true) by (vm_compute; reflexivity).
  assert (Hm289 : nth 289 (get_hr_status Examples.U12
                  (map p_hr_cum (pat_rows (df_pat MoreExamples.heap_stale))))
                  false = false) by (vm_compute; reflexivity).
  split; [|split].
  - destruct (Hmort true eq_refl) as [out [Hl [_ Hiff]]].
    exists out. split; [exact Hl|]. rewrite Hlen in Hiff.
    split; [apply Hiff; [lia | right; cbn; lia]|].
    split.
    + intros H. apply Hiff in H; [|lia].
      destruct H as [H | H]; [congruence | cbn in H; lia].
    + apply Hiff; [lia | now left].
  - destruct Hlos as [out [Hl [_ Hiff]]].
    exists out. split; [exact Hl|]. rewrite Hlen in Hiff.
    split.
    + intros H. apply Hiff in H; [|lia].
      destruct H as [H | H]; [congruence | exact H].
    + apply Hiff; [lia | now left].
  - destruct (Hfail (spec_transition_never_unknown 12)) as [[out [Hl [_ Hiff]]] _].
    exists out. split; [exact Hl|]. rewrite Hlen in Hiff.
    split.
    + intros H. apply Hiff in H; [|lia].
      destruct H as [H | H]; [congruence | exact H].
    + apply Hiff; [lia | now left].
Defined.

(** C1 (as stated) fails.  For a patient of 289 timesteps whose heart rate
    is measured at every step and whose severity group is unknown, the
    phenotyping column is unknown at timestep 288, where the validity mask
    is true and the 24-hour horizon (288 steps) has been reached.  And for
    a patient whose weight is missing, the urine regression column, which
    has no horizon, is unknown at timestep 0, where the mask is true. *)
Lemma unknown_entry_with_valid_mask :
  (exists t col,
     fst (gen_label Examples.U12 Examples.K12 Examples.rt_quiet Examples.cfg
            (SBool true) (SVal NaN) 7 (Examples.heap_of 7 289)) = Ok (Some t)
     /\ df_lookup (PHENOTYPING_NAME Examples.K12) t = Some (ColF col)
     /\ nth 288 col (Num 0) = NaN
     /\ nth 288 (get_hr_status Examples.U12
                   (map p_hr_cum (Examples.pat_of 7 289))) false = true
     /\ ~ (288 < 24 * Pos.to_nat (STEPS_PER_HOUR Examples.K12))%nat)
  /\ (exists t col,
        fst (gen_label Examples.U12 Examples.K12 Examples.rt_quiet
               Examples.cfg (SBool true) (SVal (Num 0)) 7
               MoreExamples.heap_no_weight) = Ok (Some t)
        /\ df_lookup (URINE_REG_NAME Examples.K12) t = Some (ColF col)
        /\ nth 0 col (Num 0) = NaN
        /\ nth 0 (get_hr_status Examples.U12
                    (map p_hr_cum
                       (pat_rows (df_pat MoreExamples.heap_no_weight))))
             false = true).
Proof.
  split.
  - eexists. eexists. split; [vm_compute; reflexivity|].
    split; [vm_compute; reflexivity|].
    split; [vm_compute; reflexivity|].
    split; [vm_compute; reflexivity|].
    vm_compute. lia.
  - eexists. eexists. split; [vm_compute; reflexivity|].
    split; [vm_compute; reflexivity|].
    split; vm_compute; reflexivity.
Qed.

(* ------------------------------------------------------------------ *)
(** ** Effect of [gen_label] on its arguments *)

(** C9 (as stated) fails: after [gen_label] has built the table of a
    patient, the endpoint frame it was given is indexed by timestamp, and
    a second call on the same frames raises [KeyError] where the first
    returned a table. *)
Lemma gen_label_reindexes_endpoint_frame :
  let run := gen_label Examples.U12 Examples.K12 Examples.rt_quiet
               Examples.cfg (SBool true) (SVal NaN) 7 in
  (exists t, fst (run (Examples.heap_of 7 3)) = Ok (Some t))
  /\ df_endpoint (snd (run (Examples.heap_of 7 3)))
     <> df_endpoint (Examples.heap_of 7 3)
  /\ fst (run (snd (run (Examples.heap_of 7 3)))) = Raise KeyError.
Proof.
  split; [eexists; vm_compute; reflexivity|].
  split; [intros E; discriminate E | reflexivity].
Qed.

(* ------------------------------------------------------------------ *)
(** ** Further properties of the sort of the endpoint rows *)

Lemma ascending_tail (a : endpoint_row) (l : list endpoint_row) :
  ascending (a :: l) -> ascending l.
Proof. unfold ascending. cbn [map]. intros H. now inversion H. Qed.

Lemma ascending_app_l (l1 l2 : list endpoint_row) :
  ascending (l1 ++ l2) -> ascending l1.
Proof.
  unfold ascending. induction l1 as [|a l1 IH]; intros H; [constructor|].
  cbn [app map] in *. inversion H as [|? ? Hs Hh]; subst.
  constructor; [now apply IH|].
  destruct l1; [constructor|]. cbn [app map] in *.
  inversion Hh; subst. now constructor.
Qed.

Lemma ascending_app_r (l1 l2 : list endpoint_row) :
  ascending (l1 ++ l2) -> ascending l2.
Proof.
  induction l1 as [|a l1 IH]; intros H; [exact H|].
  apply IH. now apply ascending_tail with a.
Qed.

(** Merging two consecutive pieces of an ascending frame gives the frame
    back. *)
Lemma merge_ascending_app (l1 l2 : list endpoint_row) :
  ascending (l1 ++ l2) -> merge l1 l2 = l1 ++ l2.
Proof.
  induction l1 as [|a l1 IH]; intros H; [now rewrite merge_nil_l|].
  destruct l2 as [|b l2]; [now rewrite merge_nil_r, app_nil_r|].
  rewrite merge_cons.
  assert (Hab : (e_datetime a <= e_datetime b)%Z).
  { unfold ascending in H.
    apply Sorted_StronglySorted in H; [|exact Z.le_trans].
    cbn [app map] in H. inversion H as [|? ? _ Hall]; subst.
    rewrite Forall_forall in Hall. apply Hall.
    rewrite map_app. apply in_or_app. right. now left. }
  replace (e_datetime a <=? e_datetime b)%Z with true
    by (symmetry; now apply Z.leb_le).
  cbn [app]. f_equal. apply IH. now apply ascending_tail with a.
Qed.

Lemma msort_ascending_id (fuel : nat) (l : list endpoint_row) :
  ascending l -> msort fuel l = l.
Proof.
  revert l. induction fuel as [|fuel IH]; intros l Hl; [reflexivity|].
  cbn [msort]. destruct l as [|a [|b l']]; try reflexivity.
  set (l := a :: b :: l') in *. set (h := Nat.div2 (List.length l)).
  assert (Hsplit : ascending (firstn h l ++ skipn h l))
    by now rewrite firstn_skipn.
  rewrite (IH (firstn h l)) by now apply ascending_app_l in Hsplit.
  rewrite (IH (skipn h l)) by now apply ascending_app_r in Hsplit.
  rewrite merge_ascending_app by exact Hsplit. apply firstn_skipn.
Qed.

(** X1.  Whatever [is_df_sorted] answers, an ascending frame is handed to
    [gen_label] as it is (sorting it returns it unchanged), and preparing
    the rows twice is preparing them once.  On timestamps in range the
    test of line 180 changes nothing in the result: the rows handed over
    are the stable sort of the patient's endpoint rows, and they pass
    [is_df_sorted]. *)
Theorem prepare_endpoint_is_sort (rows : list endpoint_row) :
  (ascending rows -> prepare_endpoint rows = rows)
  /\ prepare_endpoint (prepare_endpoint rows) = prepare_endpoint rows
  /\ (timestamps_in_range rows ->
      prepare_endpoint rows = sort_values rows
      /\ is_df_sorted (prepare_endpoint rows) = true).
Proof.
  assert (Hasc : forall l, ascending l -> prepare_endpoint l = l).
  { intros l Hl. unfold prepare_endpoint.
    destruct (is_df_sorted l); [reflexivity|].
    now apply msort_ascending_id. }
  split; [apply Hasc|]. split.
  - assert (Hp : ascending (prepare_endpoint rows)
                 \/ prepare_endpoint rows = rows).
    { unfold prepare_endpoint. destruct (is_df_sorted rows);
        [now right | left; apply sort_values_spec]. }
    destruct Hp as [Ha | Hx]; [now apply Hasc|].
    rewrite Hx. exact Hx.
  - intros Hr. split.
    + unfold prepare_endpoint. destruct (is_df_sorted rows) eqn:E;
        [|reflexivity].
      symmetry. apply msort_ascending_id. now apply is_df_sorted_iff.
    + apply is_df_sorted_iff.
      * apply (timestamps_in_range_perm (proj1 (prepare_endpoint_stable rows))).
        exact Hr.
      * now apply prepare_endpoint_ascending.
Qed.

(** Two ascending frames with the same rows at every instant are equal. *)
Lemma ascending_rows_at_eq (l1 l2 : list endpoint_row) :
  ascending l1 -> ascending l2 ->
  (forall t, rows_at t l1 = rows_at t l2) -> l1 = l2.
Proof.
  revert l2. induction l1 as [|a l1 IH]; intros l2 H1 H2 Hrows.
  - destruct l2 as [|b l2]; [reflexivity|].
    specialize (Hrows (e_datetime b)). rewrite rows_at_cons, Z.eqb_refl in Hrows.
    discriminate Hrows.
  - destruct l2 as [|b l2].
    { specialize (Hrows (e_datetime a)).
      rewrite rows_at_cons, Z.eqb_refl in Hrows. discriminate Hrows. }
    assert (Hab : a = b).
    { destruct (Z.lt_trichotomy (e_datetime a) (e_datetime b)) as [Hlt | [Heq | Hgt]].
      - pose proof (Hrows (e_datetime a)) as Ha.
        rewrite (rows_at_cons _ a), Z.eqb_refl in Ha.
        rewrite (ascending_rows_at_nil H2 Hlt) in Ha. discriminate Ha.
      - pose proof (Hrows (e_datetime a)) as Ha.
        rewrite (rows_at_cons _ a), Z.eqb_refl in Ha.
        rewrite (rows_at_cons _ b) in Ha.
        replace (e_datetime b =? e_datetime a)%Z with true in Ha
          by (symmetry; apply Z.eqb_eq; lia).
        now injection Ha.
      - pose proof (Hrows (e_datetime b)) as Hb.
        rewrite (rows_at_cons _ b), Z.eqb_refl in Hb.
        rewrite (ascending_rows_at_nil H1) in Hb by lia. discriminate Hb. }
    subst b. f_equal. apply IH.
    + now apply ascending_tail with a.
    + now apply ascending_tail with a.
    + intros t. specialize (Hrows t). rewrite !rows_at_cons in Hrows.
      destruct (e_datetime a =? t)%Z; [now injection Hrows | exact Hrows].
Qed.

Lemma has_dup_false_iff (l : list Z) : has_dup l = false <-> NoDup l.
Proof.
  induction l as [|x l IH]; simpl.
  - split; [constructor | reflexivity].
  - rewrite orb_false_iff, IH. split.
    + intros [Hx Hl]. constructor; [|exact Hl]. intros Hin.
      assert (existsb (Z.eqb x) l = true)
        by (apply existsb_exists; exists x; split;
            [exact Hin | apply Z.eqb_refl]).
      congruence.
    + intros H. inversion H as [|? ? Hx Hl]; subst. split; [|exact Hl].
      destruct (existsb (Z.eqb x) l) eqn:E; [|reflexivity].
      apply existsb_exists in E. destruct E as [y [Hy Exy]].
      apply Z.eqb_eq in Exy. subst y. contradiction.
Qed.

Lemma filter_perm (A : Type) (f : A -> bool) (l l' : list A) :
  Permutation l l' -> Permutation (filter f l) (filter f l').
Proof.
  induction 1 as [|x l l' _ IH|x y l|l l' l'' _ IH1 _ IH2]; simpl.
  - constructor.
  - destruct (f x); [now constructor | exact IH].
  - destruct (f x), (f y); try reflexivity. constructor.
  - now transitivity (filter f l').
Qed.

(** With pairwise distinct timestamps an instant holds at most one row. *)
Lemma rows_at_unique (t : Z) (l : list endpoint_row) :
  NoDup (map e_datetime l) -> (List.length (rows_at t l) <= 1)%nat.
Proof.
  induction l as [|a l IH]; intros Hnd; [simpl; lia|].
  cbn [map] in Hnd. inversion Hnd as [|? ? Ha Hl]; subst.
  rewrite rows_at_cons. destruct (e_datetime a =? t)%Z eqn:E;
    [|now apply IH].
  apply Z.eqb_eq in E. subst t.
  replace (rows_at (e_datetime a) l) with (@nil endpoint_row);
    [simpl; lia|].
  symmetry. unfold rows_at. clear IH Hl Hnd.
  induction l as [|b l IHl]; [reflexivity|]. cbn [filter].
  destruct (e_datetime b =? e_datetime a)%Z eqn:Eb.
  - apply Z.eqb_eq in Eb. exfalso. apply Ha. cbn [map]. left. exact Eb.
  - apply IHl. intros Hin. apply Ha. cbn [map]. now right.
Qed.

(** The prepared rows do not depend on the order in which a patient's
    endpoint rows are stored, when the timestamps are in range and no two
    rows share an instant. *)
Lemma prepare_endpoint_perm (l l' : list endpoint_row) :
  Permutation l l' -> timestamps_in_range l -> NoDup (map e_datetime l) ->
  prepare_endpoint l = prepare_endpoint l'.
Proof.
  intros Hperm Hrange Hnd.
  pose proof (prepare_endpoint_ascending Hrange) as Hs.
  pose proof (prepare_endpoint_ascending
                (timestamps_in_range_perm Hperm Hrange)) as Hs'.
  destruct (prepare_endpoint_stable l) as [_ Hr].
  destruct (prepare_endpoint_stable l') as [_ Hr'].
  apply ascending_rows_at_eq; [exact Hs | exact Hs' |].
  intros t. rewrite Hr, Hr'.
  pose proof (filter_perm (fun r => Z.eqb (e_datetime r) t) Hperm) as Hf.
  fold (rows_at t l) (rows_at t l') in Hf.
  pose proof (@rows_at_unique t l Hnd) as Hlen.
  destruct (rows_at t l) as [|x [|y rest]].
  - now apply Permutation_nil in Hf.
  - now apply Permutation_length_1_inv in Hf.
  - simpl in Hlen. lia.
Qed.

(* ------------------------------------------------------------------ *)
(** ** Further properties of [gen_label] *)

Section AssemblerFacts.

Context (U : Utils) (K : Constants).

Lemma length_eqb_0 (A : Type) (l : list A) :
  (List.length l =? 0)%nat = true <-> l = [].
Proof.
  rewrite Nat.eqb_eq. apply length_zero_iff_nil.
Qed.

Lemma empty_test (A B : Type) (l1 : list A) (l2 : list B) :
  (List.length l1 =? 0)%nat || (List.length l2 =? 0)%nat = true
  <-> l1 = [] \/ l2 = [].
Proof. now rewrite orb_true_iff, !length_eqb_0. Qed.

Lemma nonempty_test (A B : Type) (l1 : list A) (l2 : list B) :
  l1 <> [] -> l2 <> [] ->
  (List.length l1 =? 0)%nat || (List.length l2 =? 0)%nat = false.
Proof.
  intros H1 H2.
  destruct ((List.length l1 =? 0)%nat || (List.length l2 =? 0)%nat) eqn:E;
    [|reflexivity].
  apply empty_test in E. tauto.
Qed.

(** The table assembled after the checks is never "no label". *)
Lemma assemble_not_none (configs : Configs) (m a : scalar)
    (pat : list pat_row) (ep : list endpoint_row) :
  assemble U K configs m a pat ep <> Ok None.
Proof.
  unfold assemble. destruct (store_channels _ _ _ _) as [d|e];
    cbn [rbind]; [|discriminate].
  destruct (pd_DataFrame d); cbn [rbind]; discriminate.
Qed.

(** X2.  [gen_label] returns a table only for frames that are both
    non-empty, with an endpoint frame not yet indexed, endpoint timestamps
    pairwise distinct and equal, one by one, to the imputed timestamps. *)
Theorem gen_label_table_only_if_aligned (rt : Runtime) (configs : Configs)
    (m a : scalar) (pid : Z) (h : heap) (t : DataFrame) :
  fst (gen_label U K rt configs m a pid h) = Ok (Some t) ->
  pat_rows (df_pat h) <> []
  /\ ep_indexed (df_endpoint h) = false
  /\ NoDup (map e_datetime (ep_rows (df_endpoint h)))
  /\ map p_datetime (pat_rows (df_pat h))
     = map e_datetime (ep_rows (df_endpoint h)).
Proof.
  rewrite gen_label_run.
  destruct ((List.length (pat_rows (df_pat h)) =? 0)%nat
            || (List.length (ep_rows (df_endpoint h)) =? 0)%nat) eqn:Eempty.
  { cbn [fst]. destruct (logging_info_flush rt); discriminate. }
  destruct (ep_indexed (df_endpoint h)); [discriminate|].
  destruct (has_dup (map e_datetime (ep_rows (df_endpoint h)))) eqn:Edup;
    [discriminate|].
  cbn [fst].
  destruct (assert_aligned _ _) as [[]|e] eqn:Eal; [|discriminate].
  intros _. apply orb_false_iff in Eempty. destruct Eempty as [Ep _].
  split; [intros E; rewrite E in Ep; discriminate|].
  split; [reflexivity|].
  split; [now apply has_dup_false_iff | now apply assert_aligned_ok].
Qed.

(** X3.  "No label" is returned exactly when one of the frames is empty
    and the logger is not enabled for INFO. *)
Theorem gen_label_none_iff_empty (rt : Runtime) (configs : Configs)
    (m a : scalar) (pid : Z) (h : heap) :
  fst (gen_label U K rt configs m a pid h) = Ok None
  <-> (pat_rows (df_pat h) = [] \/ ep_rows (df_endpoint h) = [])
      /\ info_enabled rt = false.
Proof.
  rewrite gen_label_run.
  destruct ((List.length (pat_rows (df_pat h)) =? 0)%nat
            || (List.length (ep_rows (df_endpoint h)) =? 0)%nat) eqn:Eempty.
  - apply empty_test in Eempty. cbn [fst]. unfold logging_info_flush.
    destruct (info_enabled rt); cbn [rbind]; split.
    + discriminate.
    + intros [_ H]. discriminate H.
    + intros _. split; [exact Eempty | reflexivity].
    + reflexivity.
  - assert (Hne : ~ (pat_rows (df_pat h) = [] \/ ep_rows (df_endpoint h) = [])).
    { intros H. apply empty_test in H. congruence. }
    split; [|intros [H _]; contradiction].
    destruct (ep_indexed (df_endpoint h)); [discriminate|].
    destruct (has_dup _); [discriminate|]. cbn [fst].
    destruct (assert_aligned _ _) as [[]|e]; cbn [rbind]; [|discriminate].
    intros H. now apply assemble_not_none in H.
Qed.

(** X4.  Endpoint timestamps that are not pairwise distinct make
    [gen_label] raise [ValueError] on non-empty frames, also when the two
    series agree row by row; the frames are left as they were. *)
Theorem gen_label_duplicate_timestamps (rt : Runtime) (configs : Configs)
    (m a : scalar) (pid : Z) (h : heap) :
  pat_rows (df_pat h) <> [] ->
  ep_rows (df_endpoint h) <> [] ->
  ep_indexed (df_endpoint h) = false ->
  ~ NoDup (map e_datetime (ep_rows (df_endpoint h))) ->
  gen_label U K rt configs m a pid h = (Raise ValueError, h).
Proof.
  intros Hp He Hidx Hdup. rewrite gen_label_run.
  rewrite (nonempty_test Hp He), Hidx.
  destruct (has_dup _) eqn:E; [reflexivity|].
  apply has_dup_false_iff in E. contradiction.
Qed.

(** After a call that returned a table both frames are non-empty and the
    endpoint frame is the one re-indexed. *)
Lemma gen_label_table_only_if_aligned_facts (rt : Runtime)
    (configs : Configs) (m a : scalar) (pid : Z) (h : heap) (t : DataFrame) :
  fst (gen_label U K rt configs m a pid h) = Ok (Some t) ->
  pat_rows (df_pat h) <> []
  /\ ep_rows (df_endpoint h) <> []
  /\ snd (gen_label U K rt configs m a pid h)
     = mk_heap (mk_pat_frame (pat_rows (df_pat h)))
         (mk_endpoint_frame (ep_rows (df_endpoint h)) true).
Proof.
  rewrite gen_label_run.
  destruct ((List.length (pat_rows (df_pat h)) =? 0)%nat
            || (List.length (ep_rows (df_endpoint h)) =? 0)%nat) eqn:Eempty.
  { cbn [fst]. destruct (logging_info_flush rt); discriminate. }
  destruct (ep_indexed (df_endpoint h)); [discriminate|].
  destruct (has_dup _); [discriminate|].
  intros _. cbn [snd]. apply orb_false_iff in Eempty.
  destruct Eempty as [Ep Ee].
  split; [intros E; rewrite E in Ep; discriminate|].
  split; [intros E; rewrite E in Ee; discriminate|].
  destruct h as [[pat] ep]. reflexivity.
Qed.

(** X5.  A frame pair can be labelled once: after a call that returned a
    table, any further call of [gen_label] on the same two frames raises
    [KeyError] and changes nothing. *)
Theorem gen_label_second_call_raises (rt rt' : Runtime)
    (configs configs' : Configs) (m a m' a' : scalar) (pid pid' : Z)
    (h : heap) (t : DataFrame) :
  fst (gen_label U K rt configs m a pid h) = Ok (Some t) ->
  gen_label U K rt' configs' m' a' pid'
    (snd (gen_label U K rt configs m a pid h))
  = (Raise KeyError, snd (gen_label U K rt configs m a pid h)).
Proof.
  intros Hgen.
  destruct (@gen_label_table_only_if_aligned_facts rt configs m a pid h t Hgen)
    as [Hp [He Hh']].
  rewrite Hh'. rewrite gen_label_run. heap_simpl.
  now rewrite (nonempty_test Hp He).
Qed.

End AssemblerFacts.

(* ------------------------------------------------------------------ *)
(** ** Further properties of [label_gen_benchmark] *)

Lemma filter_idem (A : Type) (f : A -> bool) (l : list A) :
  filter f (filter f l) = filter f l.
Proof.
  induction l as [|x l IH]; [reflexivity|]. simpl.
  destruct (f x) eqn:E; [|exact IH]. simpl. now rewrite E, IH.
Qed.

Section DriverExtras.

Context (U : Utils) (K : Constants).

(** X6.  The step of the loop for a patient reads only that patient's
    rows of the three tables. *)
Theorem process_patient_reads_own_rows (rt : Runtime) (configs : Configs)
    (b : Batch) (st : loop_state) (pid : Z) :
  process_patient U K rt configs b st pid
  = process_patient U K rt configs (restrict_batch b pid) st pid.
Proof.
  unfold process_patient, restrict_batch, mort_lookup, static_of.
  cbn [df_static df_all_pats df_all_endpoints].
  now rewrite !filter_idem.
Qed.

(** X7.  An exception raised for one patient ends the batch with that
    exception: the patients after it are not processed and no table is
    written. *)
Theorem patient_error_aborts_batch (rt : Runtime) (configs : Configs)
    (b : Batch) (pre post : list Z) (pid : Z) (st : loop_state) (e : exn) :
  unique (map p_pid (df_all_pats b)) = pre ++ pid :: post ->
  process_patients U K rt configs b (mk_loop_state 0 []) pre = Ok st ->
  process_patient U K rt configs b st pid = Raise e ->
  label_gen_benchmark U K rt configs b = Raise e.
Proof.
  intros Hpids Hpre Hstep. unfold label_gen_benchmark.
  rewrite Hpids, process_patients_app, Hpre.
  cbn [rbind process_patients]. now rewrite Hstep.
Qed.

(** X8.  The static table must hold exactly one record of the patient:
    with none the lookup of the discharge status raises [IndexError],
    which the handlers of lines 146-149 do not catch; with two or more
    [float] of the severity score raises [TypeError]. *)
Theorem static_record_must_be_unique (rt : Runtime) (configs : Configs)
    (b : Batch) (st : loop_state) (pid : Z) :
  (static_of (df_static b) pid = [] ->
   process_patient U K rt configs b st pid = Raise IndexError)
  /\ (forall r1 r2 rest,
        static_of (df_static b) pid = r1 :: r2 :: rest ->
        process_patient U K rt configs b st pid = Raise TypeError).
Proof.
  split.
  - intros Hsel. unfold process_patient, mort_lookup. now rewrite Hsel.
  - intros r1 r2 rest Hsel. unfold process_patient, mort_lookup.
    rewrite Hsel. cbn [mort_status_of rbind map py_float].
    now destruct (s_apache2 r1).
Qed.

(** "No label" comes from an empty frame only. *)
Lemma gen_label_none_iff_empty_facts (rt : Runtime) (configs : Configs)
    (m a : scalar) (pid : Z) (h : heap) :
  fst (gen_label U K rt configs m a pid h) = Ok None ->
  pat_rows (df_pat h) = [] \/ ep_rows (df_endpoint h) = [].
Proof.
  rewrite gen_label_run.
  destruct ((List.length (pat_rows (df_pat h)) =? 0)%nat
            || (List.length (ep_rows (df_endpoint h)) =? 0)%nat) eqn:Eempty.
  - intros _. now apply empty_test.
  - destruct (ep_indexed (df_endpoint h)); [discriminate|].
    destruct (has_dup _); [discriminate|]. cbn [fst].
    destruct (assert_aligned _ _) as [[]|e]; cbn [rbind]; [|discriminate].
    intros H. now apply assemble_not_none in H.
Qed.

(** A step that succeeds either counts the patient as skipped, for want
    of data, or got a table from [gen_label]; the "no label" branch of
    lines 187-190 is never taken. *)
Lemma process_patient_ok (rt : Runtime) (configs : Configs) (b : Batch)
    (st st' : loop_state) (pid : Z) :
  process_patient U K rt configs b st pid = Ok st' ->
  let pat := filter (fun r => Z.eqb (p_pid r) pid) (df_all_pats b) in
  let ep := filter (fun r => Z.eqb (e_pid r) pid) (df_all_endpoints b) in
  (st' = skip st
   /\ (patient_path_exists rt = false \/ pat = [] \/ ep = []))
  \/ (exists m a t,
        pat <> [] /\ ep <> []
        /\ fst (gen_label U K rt configs (SBool m) a pid
                  (mk_heap (mk_pat_frame pat)
                     (mk_endpoint_frame (prepare_endpoint ep) false)))
           = Ok (Some t)
        /\ df_nrows t = List.length pat
        /\ st' = if debug_mode configs then st
                 else mk_loop_state (n_skipped_patients st)
                        (all_out_dfs st ++ [t])).
Proof.
  intros Hstep pat ep. unfold process_patient in Hstep.
  destruct (mort_status_of _) as [m|e]; cbn [rbind] in Hstep; [|discriminate].
  destruct (py_float _) as [v2|e]; cbn [rbind] in Hstep; [|discriminate].
  destruct (py_float _) as [v4|e]; cbn [rbind] in Hstep; [|discriminate].
  destruct (patient_path_exists rt); cbn [negb] in Hstep.
  2:{ left. injection Hstep as <-. split; [reflexivity | now left]. }
  fold pat ep in Hstep.
  destruct ((List.length pat =? 0)%nat || (List.length ep =? 0)%nat) eqn:Ee.
  { apply empty_test in Ee. left.
    destruct (logging_info_flush rt); cbn [rbind] in Hstep; [|discriminate].
    injection Hstep as <-. split; [reflexivity | now right]. }
  assert (Hp : pat <> []).
  { intros E. rewrite E in Ee. discriminate. }
  assert (He : ep <> []).
  { intros E. rewrite E, orb_true_r in Ee. discriminate. }
  match type of Hstep with
  | rbind (fst ?g) _ = _ => destruct (fst g) as [[t|]|e] eqn:Egen
  end; cbn [rbind] in Hstep; [| |discriminate].
  - right. exists m, (merge_apache_groups U v2 v4 (APACHE_II_map configs)
                        (APACHE_IV_map configs)), t.
    split; [exact Hp|]. split; [exact He|]. split; [exact Egen|].
    destruct (df_nrows t =? List.length pat)%nat eqn:En;
      cbn [negb] in Hstep; [|discriminate].
    apply Nat.eqb_eq in En. split; [exact En|].
    destruct (debug_mode configs); now injection Hstep as <-.
  - exfalso. apply gen_label_none_iff_empty_facts in Egen.
    cbn [df_pat pat_rows df_endpoint ep_rows] in Egen.
    destruct Egen as [E | E]; [contradiction|].
    apply He. apply length_zero_iff_nil.
    rewrite <- prepare_endpoint_length, E. reflexivity.
Qed.

End DriverExtras.

Section DriverCounting.

Context (U : Utils) (K : Constants).

(** X9.  The skip of lines 187-190 ("label could not be created") is
    never taken: on the non-empty slices the loop hands to [gen_label],
    [gen_label] never returns "no label", so what lines 187-195 make of
    its result never counts the patient as skipped. *)
Theorem no_label_skip_unreachable (rt : Runtime) (configs : Configs)
    (b : Batch) (st : loop_state) (pid : Z) (m a : scalar) :
  let pat := filter (fun r => Z.eqb (p_pid r) pid) (df_all_pats b) in
  let ep := filter (fun r => Z.eqb (e_pid r) pid) (df_all_endpoints b) in
  let h :=
    mk_heap (mk_pat_frame pat)
      (mk_endpoint_frame (prepare_endpoint ep) false) in
  pat <> [] -> ep <> [] ->
  fst (gen_label U K rt configs m a pid h) <> Ok None
  /\ rbind (fst (gen_label U K rt configs m a pid h))
       (keep_label configs st (List.length pat))
     <> Ok (skip st).
Proof.
  intros pat ep h Hp He.
  assert (Hnone : fst (gen_label U K rt configs m a pid h) <> Ok None).
  { intros H. apply (@gen_label_none_iff_empty_facts U K) in H.
    cbn [h df_pat df_endpoint pat_rows ep_rows] in H.
    destruct H as [H | H]; [contradiction|].
    apply He. apply length_zero_iff_nil.
    rewrite <- (prepare_endpoint_length ep), H. reflexivity. }
  split; [exact Hnone|].
  destruct (fst (gen_label U K rt configs m a pid h)) as [[t|]|e];
    cbn [rbind keep_label]; [| contradiction | discriminate].
  destruct (negb _); [discriminate|].
  destruct (debug_mode configs); intros H;
    apply (f_equal (fun r => match r with
                             | Ok s => n_skipped_patients s
                             | Raise _ => 0%nat
                             end)) in H;
    cbn [skip n_skipped_patients] in H; lia.
Qed.

Lemma process_patient_count (rt : Runtime) (configs : Configs) (b : Batch)
    (st st' : loop_state) (pid : Z) :
  process_patient U K rt configs b st pid = Ok st' ->
  if debug_mode configs
  then all_out_dfs st' = all_out_dfs st
       /\ (n_skipped_patients st <= n_skipped_patients st'
           <= S (n_skipped_patients st))%nat
  else (n_skipped_patients st' + List.length (all_out_dfs st')
        = S (n_skipped_patients st + List.length (all_out_dfs st)))%nat.
Proof.
  intros Hstep.
  destruct (process_patient_ok U K rt configs b st pid Hstep)
    as [[-> _] | [m [a [t [_ [_ [_ [_ ->]]]]]]]].
  - destruct (debug_mode configs); cbn [skip n_skipped_patients all_out_dfs].
    + split; [reflexivity | lia].
    + lia.
  - destruct (debug_mode configs).
    + split; [reflexivity | lia].
    + cbn [n_skipped_patients all_out_dfs]. rewrite length_app. simpl. lia.
Qed.

Lemma process_patients_count (rt : Runtime) (configs : Configs) (b : Batch)
    (pids : list Z) :
  forall st st',
  process_patients U K rt configs b st pids = Ok st' ->
  if debug_mode configs
  then all_out_dfs st' = all_out_dfs st
       /\ (n_skipped_patients st <= n_skipped_patients st'
           <= n_skipped_patients st + List.length pids)%nat
  else (n_skipped_patients st' + List.length (all_out_dfs st')
        = n_skipped_patients st + List.length (all_out_dfs st)
          + List.length pids)%nat.
Proof.
  induction pids as [|pid pids IH]; intros st st' Hrun.
  - simpl in Hrun. injection Hrun as <-.
    destruct (debug_mode configs); simpl; [split; [reflexivity | lia] | lia].
  - cbn [process_patients] in Hrun.
    destruct (process_patient U K rt configs b st pid) as [st1|e] eqn:E1;
      cbn [rbind] in Hrun; [|discriminate].
    apply process_patient_count in E1. apply IH in Hrun.
    destruct (debug_mode configs).
    + destruct E1 as [E1 ?], Hrun as [Hrun ?].
      split; [congruence | simpl; lia].
    + simpl. lia.
Qed.

(** X10.  When a batch is processed to the end outside debug mode, every
    distinct patient ID of the imputed table is accounted for exactly
    once: the number of skipped patients plus the number of tables kept is
    the number of distinct IDs.  In debug mode no table is kept or
    written. *)
Theorem every_patient_counted_once (rt : Runtime) (configs : Configs)
    (b : Batch) (st : loop_state) (out : option DataFrame) :
  label_gen_benchmark U K rt configs b = Ok (st, out) ->
  if debug_mode configs
  then all_out_dfs st = [] /\ out = None
       /\ (n_skipped_patients st
           <= List.length (unique (map p_pid (df_all_pats b))))%nat
  else (n_skipped_patients st + List.length (all_out_dfs st)
        = List.length (unique (map p_pid (df_all_pats b))))%nat.
Proof.
  unfold label_gen_benchmark. intros Hrun.
  destruct (process_patients U K rt configs b _ _) as [st1|e] eqn:E;
    cbn [rbind] in Hrun; [|discriminate].
  apply process_patients_count in E.
  cbn [n_skipped_patients all_out_dfs List.length] in E.
  destruct (debug_mode configs).
  - injection Hrun as <- <-. destruct E as [E ?]. repeat split; [exact E | lia].
  - destruct (pd_concat _); cbn [rbind] in Hrun; [|discriminate].
    injection Hrun as <- _. lia.
Qed.

(** X11.  Outside debug mode a run that ends normally has kept at least
    one table and written their concatenation; a batch in which no patient
    yields a table, in particular an empty imputed table, ends with the
    [ValueError] of [pd.concat] on an empty list.  In debug mode an empty
    imputed table is processed without error. *)
Theorem no_table_no_output (rt : Runtime) (configs : Configs) (b : Batch) :
  (forall st out,
     debug_mode configs = false ->
     label_gen_benchmark U K rt configs b = Ok (st, out) ->
     all_out_dfs st <> []
     /\ exists t, out = Some t /\ pd_concat (all_out_dfs st) = Ok t)
  /\ (forall st,
        debug_mode configs = false ->
        process_patients U K rt configs b (mk_loop_state 0 [])
          (unique (map p_pid (df_all_pats b))) = Ok st ->
        all_out_dfs st = [] ->
        label_gen_benchmark U K rt configs b = Raise ValueError)
  /\ (df_all_pats b = [] ->
      label_gen_benchmark U K rt configs b
      = if debug_mode configs then Ok (mk_loop_state 0 [], None)
        else Raise ValueError).
Proof.
  split; [|split].
  - intros st out Hdbg Hrun. unfold label_gen_benchmark in Hrun.
    rewrite Hdbg in Hrun.
    destruct (process_patients U K rt configs b _ _) as [st1|e];
      cbn [rbind] in Hrun; [|discriminate].
    destruct (pd_concat (all_out_dfs st1)) as [t|e] eqn:Ec;
      cbn [rbind] in Hrun; [|discriminate].
    injection Hrun as <- <-. split.
    + intros E. rewrite E in Ec. discriminate Ec.
    + exists t. split; [reflexivity | exact Ec].
  - intros st Hdbg Hrun Hnil. unfold label_gen_benchmark.
    rewrite Hrun. cbn [rbind]. now rewrite Hdbg, Hnil.
  - intros Hnil. unfold label_gen_benchmark. rewrite Hnil.
    cbn [map unique process_patients rbind all_out_dfs].
    now destruct (debug_mode configs).
Qed.

End DriverCounting.

Lemma has_dup_perm (l l' : list Z) :
  Permutation l l' -> has_dup l = has_dup l'.
Proof.
  intros Hperm.
  destruct (has_dup l) eqn:E, (has_dup l') eqn:E'; try reflexivity.
  - apply has_dup_false_iff in E'.
    apply (Permutation_NoDup (Permutation_sym Hperm)) in E'.
    apply has_dup_false_iff in E'. congruence.
  - apply has_dup_false_iff in E.
    apply (Permutation_NoDup Hperm) in E.
    apply has_dup_false_iff in E. congruence.
Qed.

Section DriverTables.

Context (U : Utils) (K : Constants).

(** Repeated endpoint timestamps on non-empty frames: [ValueError]. *)
Lemma gen_label_duplicate_timestamps_facts (rt : Runtime)
    (configs : Configs) (m a : scalar) (pid : Z) (pat : list pat_row)
    (ep : list endpoint_row) :
  pat <> [] -> ep <> [] -> ~ NoDup (map e_datetime ep) ->
  fst (gen_label U K rt configs m a pid
         (mk_heap (mk_pat_frame pat) (mk_endpoint_frame ep false)))
  = Raise ValueError.
Proof.
  intros Hp He Hdup. rewrite gen_label_run. heap_simpl.
  rewrite (nonempty_test Hp He).
  destruct (has_dup _) eqn:E; [reflexivity|].
  apply has_dup_false_iff in E. contradiction.
Qed.

(** X12.  For a patient whose endpoint timestamps are in range, the
    order in which the rows of the endpoint table are stored does not
    matter: the step of the loop gives the same result on any permutation
    of the endpoint table. *)
Theorem endpoint_order_irrelevant (rt : Runtime) (configs : Configs)
    (b : Batch) (eps' : list endpoint_row) (st : loop_state) (pid : Z) :
  Permutation (df_all_endpoints b) eps' ->
  timestamps_in_range
    (filter (fun r => Z.eqb (e_pid r) pid) (df_all_endpoints b)) ->
  process_patient U K rt configs b st pid
  = process_patient U K rt configs
      (mk_Batch (df_static b) (df_all_pats b) eps') st pid.
Proof.
  intros Hperm Hrange. unfold process_patient.
  cbn [df_static df_all_pats df_all_endpoints].
  set (pat := filter (fun r => Z.eqb (p_pid r) pid) (df_all_pats b)).
  set (ep := filter (fun r => Z.eqb (e_pid r) pid) (df_all_endpoints b)).
  set (ep' := filter (fun r => Z.eqb (e_pid r) pid) eps').
  assert (Hp : Permutation ep ep') by now apply filter_perm.
  rewrite <- (Permutation_length Hp).
  destruct (mort_status_of _) as [m|e]; cbn [rbind]; [|reflexivity].
  destruct (py_float _) as [v2|e]; cbn [rbind]; [|reflexivity].
  destruct (py_float _) as [v4|e]; cbn [rbind]; [|reflexivity].
  destruct (negb (patient_path_exists rt)); [reflexivity|].
  destruct ((List.length pat =? 0)%nat || (List.length ep =? 0)%nat) eqn:Ee;
    [reflexivity|].
  destruct (has_dup (map e_datetime ep)) eqn:Edup.
  - assert (Hpat : pat <> []).
    { intros E. rewrite E in Ee. discriminate. }
    assert (Hne : forall l, Permutation ep l -> prepare_endpoint l <> []).
    { intros l Hl E. apply (f_equal (@List.length _)) in E.
      rewrite prepare_endpoint_length, <- (Permutation_length Hl) in E.
      apply length_zero_iff_nil in E. rewrite E, orb_true_r in Ee.
      discriminate. }
    assert (Hdup : forall l, Permutation ep l ->
               ~ NoDup (map e_datetime (prepare_endpoint l))).
    { intros l Hl Hnd. apply has_dup_false_iff in Hnd.
      rewrite <- (has_dup_perm
                    (Permutation_map e_datetime
                       (Permutation_trans Hl
                          (proj1 (prepare_endpoint_stable l)))))
        in Hnd.
      congruence. }
    rewrite !gen_label_duplicate_timestamps_facts; auto.
  - apply has_dup_false_iff in Edup.
    now rewrite (prepare_endpoint_perm Hp Hrange Edup).
Qed.

(** The tables kept for a batch: their columns and rows. *)
Lemma kept_tables_well_formed_facts (rt : Runtime) (configs : Configs)
    (b : Batch) (st : loop_state) (out : option DataFrame) :
  NoDup (column_names K configs) ->
  label_gen_benchmark U K rt configs b = Ok (st, out) ->
  Forall (fun t => map fst t = column_names K configs /\ df_nrows t <> 0%nat)
         (all_out_dfs st).
Proof.
  intros Hnd Hrun. unfold label_gen_benchmark in Hrun.
  destruct (process_patients U K rt configs b _ _) as [st1|e] eqn:E;
    cbn [rbind] in Hrun; [|discriminate].
  assert (Hst : st = st1).
  { destruct (debug_mode configs); [now injection Hrun as <- _|].
    destruct (pd_concat _); cbn [rbind] in Hrun; [|discriminate].
    now injection Hrun as <- _. }
  subst st1. clear Hrun. revert E.
  assert (Hinit : Forall (fun t => map fst t = column_names K configs
                                   /\ df_nrows t <> 0%nat)
                    (all_out_dfs (mk_loop_state 0 []))) by constructor.
  revert Hinit. generalize (mk_loop_state 0 []).
  induction (unique (map p_pid (df_all_pats b))) as [|pid pids IH];
    intros st0 Hinv Hloop.
  - simpl in Hloop. now injection Hloop as <-.
  - cbn [process_patients] in Hloop.
    destruct (process_patient U K rt configs b st0 pid) as [st1|e] eqn:E1;
      cbn [rbind] in Hloop; [|discriminate].
    apply (IH st1); [|exact Hloop].
    destruct (process_patient_ok U K rt configs b st0 pid E1)
      as [[-> _] | [m [a [t [Hp [_ [Hgen [Hrows ->]]]]]]]]; [exact Hinv|].
    destruct (debug_mode configs); [exact Hinv|].
    cbn [all_out_dfs]. apply Forall_app. split; [exact Hinv|].
    constructor; [|constructor]. split.
    + now destruct (@gen_label_channels U K rt configs (SBool m) a pid _ t
                      Hnd Hgen) as [Hn _].
    + rewrite Hrows. intros E0. apply length_zero_iff_nil in E0.
      contradiction.
Qed.

(** X13.  Every table kept for the batch has the ten columns of the
    output and at least one row. *)
Theorem kept_tables_well_formed (rt : Runtime) (configs : Configs)
    (b : Batch) (st : loop_state) (out : option DataFrame) :
  NoDup (column_names K configs) ->
  label_gen_benchmark U K rt configs b = Ok (st, out) ->
  Forall (fun t => map fst t = column_names K configs /\ df_nrows t <> 0%nat)
         (all_out_dfs st).
Proof. apply kept_tables_well_formed_facts. Qed.

End DriverTables.

(* ------------------------------------------------------------------ *)
(** ** When [gen_label] returns a table *)

Lemma dict_set_lengths (n : nat) (d : pydict) (k : string) (v : dict_value) :
  Forall (fun kv => entry_len kv = n) d ->
  entry_len (k, v) = n ->
  Forall (fun kv => entry_len kv = n) (dict_set d k v).
Proof.
  intros Hd Hv. induction d as [|[k' v'] d IH]; simpl.
  - now constructor.
  - inversion Hd; subst. destruct (String.eqb k' k).
    + now constructor.
    + constructor; [assumption | now apply IH].
Qed.

Lemma dict_set_nonempty (d : pydict) (k : string) (v : dict_value) :
  dict_set d k v <> [].
Proof.
  destruct d as [|[k' v'] d]; simpl; [discriminate|].
  destruct (String.eqb k' k); discriminate.
Qed.

Lemma index_length_uniform (n : nat) (d : pydict) :
  d <> [] -> Forall (fun kv => entry_len kv = n) d -> index_length d = n.
Proof.
  intros Hne Hd. unfold index_length.
  destruct (find (fun kv => is_series (snd kv)) d) as [kv|] eqn:E.
  - apply find_some in E. destruct E as [Hin _].
    rewrite Forall_forall in Hd. exact (Hd kv Hin).
  - destruct d as [|kv d]; [contradiction|]. now inversion Hd.
Qed.

Lemma pd_DataFrame_uniform (n : nat) (d : pydict) :
  d <> [] -> Forall (fun kv => entry_len kv = n) d ->
  exists t, pd_DataFrame d = Ok t.
Proof.
  intros Hne Hd. unfold pd_DataFrame.
  rewrite (index_length_uniform Hne Hd).
  replace (forallb _ d) with true; [eexists; reflexivity|].
  symmetry. apply forallb_forall. intros kv Hin. apply Nat.eqb_eq.
  rewrite Forall_forall in Hd. exact (Hd kv Hin).
Qed.

Section AssemblerSuccess.

Context (U : Utils) (K : Constants).

Lemma store_channels_ok (n : nat) (mask : list bool)
    (chs : list (string * list val)) :
  length_preserving U ->
  List.length mask = n ->
  Forall (fun ch => List.length (snd ch) = n) chs ->
  forall d, d <> [] -> Forall (fun kv => entry_len kv = n) d ->
  exists d', store_channels U mask d chs = Ok d'
             /\ d' <> [] /\ Forall (fun kv => entry_len kv = n) d'.
Proof.
  intros [_ [Hconv _]] Hmask. induction 1 as [|[k raw] chs Hraw _ IH];
    intros d Hne Hd.
  - exists d. repeat split; assumption.
  - cbn [store_channels]. unfold store_channel. cbn [fst snd] in *.
    destruct (Hconv raw mask) as [out [Hout Hlen]]; [congruence|].
    rewrite Hout. cbn [rbind]. apply IH.
    + apply dict_set_nonempty.
    + apply dict_set_lengths; [exact Hd|]. unfold entry_len. simpl. congruence.
Qed.

(** X14.  With collaborators that return one label per timestep,
    [gen_label] returns a table for every patient whose frames are
    non-empty, whose endpoint frame is not yet indexed, and whose endpoint
    timestamps are pairwise distinct and equal, one by one, to the imputed
    timestamps; the endpoint frame is then indexed by timestamp. *)
Theorem gen_label_returns_table (rt : Runtime) (configs : Configs)
    (m a : scalar) (pid : Z) (h : heap) :
  length_preserving U ->
  pat_rows (df_pat h) <> [] ->
  ep_indexed (df_endpoint h) = false ->
  NoDup (map e_datetime (ep_rows (df_endpoint h))) ->
  map p_datetime (pat_rows (df_pat h))
  = map e_datetime (ep_rows (df_endpoint h)) ->
  exists t,
    gen_label U K rt configs m a pid h
    = (Ok (Some t),
       mk_heap (df_pat h) (mk_endpoint_frame (ep_rows (df_endpoint h)) true)).
Proof.
  intros HU Hp Hidx Hnd Hal.
  set (pat := pat_rows (df_pat h)) in *.
  set (ep := ep_rows (df_endpoint h)) in *.
  assert (Hlen : List.length ep = List.length pat).
  { apply (f_equal (@List.length _)) in Hal. now rewrite !length_map in Hal. }
  assert (He : ep <> []).
  { intros E. rewrite E in Hlen. symmetry in Hlen.
    now apply length_zero_iff_nil in Hlen. }
  rewrite gen_label_run. fold pat ep.
  rewrite (nonempty_test Hp He), Hidx.
  replace (has_dup (map e_datetime ep)) with false
    by (symmetry; now apply has_dup_false_iff).
  replace (assert_aligned (map p_datetime pat) (map e_datetime ep))
    with (Ok tt) by (symmetry; now apply assert_aligned_ok).
  cbn [rbind]. unfold assemble.
  pose proof HU as [Hhr [_ [Hlab [Htr [Hresp Hur]]]]].
  set (mask := get_hr_status U (map p_hr_cum pat)).
  set (d3 := dict_set
               (dict_set
                  (dict_set [] (abs_datetime_key configs)
                     (VSeries (ColZ (map p_datetime pat))))
                  (rel_datetime_key configs) (VSeries (ColF (map p_rel pat))))
               (patient_id_key configs) (VSeries (ColZ (map p_pid pat)))).
  assert (Hmask : List.length mask = List.length pat)
    by (unfold mask; now rewrite Hhr, length_map).
  assert (Hchs : Forall (fun ch => List.length (snd ch) = List.length pat)
                   (raw_channels U K pat ep m a)).
  { unfold raw_channels. cbv zeta.
    repeat constructor; cbn [snd];
      rewrite ?Hlab, ?Htr, ?Hresp, ?length_map; try congruence.
    - rewrite (proj1 (Hur _ _ _ _)). apply length_map.
    - rewrite (proj2 (Hur _ _ _ _)). apply length_map.
    - unfold rem_los_raw. now rewrite length_map, np_linspace_length. }
  assert (Hd3 : Forall (fun kv => entry_len kv = List.length pat) d3).
  { unfold d3. repeat apply dict_set_lengths; try constructor;
      unfold entry_len; simpl; now rewrite length_map. }
  destruct (@store_channels_ok (List.length pat) mask
              (raw_channels U K pat ep m a) HU Hmask Hchs d3
              (dict_set_nonempty _ _ _) Hd3)
    as [d' [Hst [Hne' Hd']]].
  rewrite Hst. cbn [rbind].
  destruct (pd_DataFrame_uniform Hne' Hd') as [t Ht].
  rewrite Ht. cbn [rbind]. now exists t.
Qed.

End AssemblerSuccess.

Lemma spec_utils_length_preserving (sph : positive) (lookback : nat) :
  length_preserving (SpecUtils.utils sph lookback).
Proof.
  unfold length_preserving, SpecUtils.utils. cbn.
  split; [|split; [|split; [|split; [|split]]]].
  - intros c. unfold SpecUtils.get_hr_status.
    now rewrite length_map, length_seq.
  - intros arr mask Hlen. unfold SpecUtils.convolve_hr.
    replace (List.length arr =? List.length mask)%nat with true
      by (symmetry; now apply Nat.eqb_eq).
    eexists. split; [reflexivity | now apply mask_with_length].
  - intros L s hours. unfold SpecUtils.unique_label_at_hours.
    now rewrite length_map, length_seq.
  - intros c l r. unfold SpecUtils.transition_to_failure.
    now rewrite length_map, length_seq.
  - intros c. unfold SpecUtils.get_any_resp_label. now rewrite length_map.
  - intros u c w r. unfold SpecUtils.future_urine_output. cbn [fst snd].
    now rewrite !length_map, length_seq.
Qed.

Lemma gen_label_returns_table_witness :
  exists t,
    gen_label Examples.U12 Examples.K12 Examples.rt_quiet Examples.cfg
      (SBool true) (SVal NaN) 7 (Examples.heap_of 7 3)
    = (Ok (Some t),
       mk_heap (mk_pat_frame (Examples.pat_of 7 3))
         (mk_endpoint_frame (Examples.endpoint_of 7 3) true)).
Proof.
  apply (@gen_label_returns_table Examples.U12 Examples.K12 Examples.rt_quiet
           Examples.cfg (SBool true) (SVal NaN) 7 (Examples.heap_of 7 3)).
  - apply spec_utils_length_preserving.
  - intros E. discriminate E.
  - reflexivity.
  - apply has_dup_false_iff. reflexivity.
  - reflexivity.
Defined.

(* ------------------------------------------------------------------ *)
(** ** The further properties on the concrete batches *)

Lemma gen_label_table_only_if_aligned_witness :
  exists t,
    fst (gen_label Examples.U12 Examples.K12 Examples.rt_quiet Examples.cfg
           (SBool true) (SVal NaN) 7 (Examples.heap_of 7 3)) = Ok (Some t)
    /\ NoDup (map e_datetime (Examples.endpoint_of 7 3))
    /\ map p_datetime (Examples.pat_of 7 3)
       = map e_datetime (Examples.endpoint_of 7 3).
Proof.
  eexists. split; [vm_compute; reflexivity|].
  match goal with
  | |- NoDup _ /\ _ =>
      destruct (@gen_label_table_only_if_aligned Examples.U12 Examples.K12
                  Examples.rt_quiet Examples.cfg (SBool true) (SVal NaN) 7
                  (Examples.heap_of 7 3) _ eq_refl) as [_ [_ [Hnd Hal]]]
  end.
  split; [exact Hnd | exact Hal].
Defined.

Lemma gen_label_duplicate_timestamps_witness :
  gen_label Examples.U12 Examples.K12 Examples.rt_quiet Examples.cfg
    (SBool true) (SVal NaN) 7
    (mk_heap (mk_pat_frame (Examples.pat_of 7 2 ++ Examples.pat_of 7 2))
       (mk_endpoint_frame
          (Examples.endpoint_of 7 2 ++ Examples.endpoint_of 7 2) false))
  = (Raise ValueError,
     mk_heap (mk_pat_frame (Examples.pat_of 7 2 ++ Examples.pat_of 7 2))
       (mk_endpoint_frame
          (Examples.endpoint_of 7 2 ++ Examples.endpoint_of 7 2) false)).
Proof.
  apply gen_label_duplicate_timestamps.
  - intros E. discriminate E.
  - intros E. discriminate E.
  - reflexivity.
  - intros Hnd. apply has_dup_false_iff in Hnd. discriminate Hnd.
Defined.

Lemma gen_label_second_call_raises_witness :
  fst (gen_label Examples.U12 Examples.K12 Examples.rt_info Examples.cfg
         (SBool false) SNone 7
         (snd (gen_label Examples.U12 Examples.K12 Examples.rt_quiet
                 Examples.cfg (SBool true) (SVal NaN) 7
                 (Examples.heap_of 7 3))))
  = Raise KeyError.
Proof.
  assert (Hfirst : exists t,
             fst (gen_label Examples.U12 Examples.K12 Examples.rt_quiet
                    Examples.cfg (SBool true) (SVal NaN) 7
                    (Examples.heap_of 7 3)) = Ok (Some t))
    by (eexists; vm_compute; reflexivity).
  destruct Hfirst as [t Ht].
  now rewrite (@gen_label_second_call_raises Examples.U12 Examples.K12
                 Examples.rt_quiet Examples.rt_info Examples.cfg Examples.cfg
                 (SBool true) (SVal NaN) (SBool false) SNone 7 7
                 (Examples.heap_of 7 3) t Ht).
Defined.

Lemma patient_error_aborts_batch_witness :
  label_gen_benchmark Examples.U12 Examples.K12 Examples.rt_quiet
    Examples.cfg Examples.batch_bad_apache = Raise TypeError.
Proof.
  apply (@patient_error_aborts_batch Examples.U12 Examples.K12
           Examples.rt_quiet Examples.cfg Examples.batch_bad_apache
           [] [8%Z] 7%Z (mk_loop_state 0 []) TypeError); reflexivity.
Defined.

Lemma no_label_skip_unreachable_witness :
  fst (gen_label Examples.U12 Examples.K12 Examples.rt_quiet Examples.cfg
         (SBool false) (SVal (Num 0)) 7 (Examples.heap_of 7 3)) <> Ok None
  /\ process_patient Examples.U12 Examples.K12 Examples.rt_quiet Examples.cfg
       Examples.batch_ok (mk_loop_state 0 []) 7
     <> Ok (skip (mk_loop_state 0 [])).
Proof.
  destruct (@no_label_skip_unreachable Examples.U12 Examples.K12
              Examples.rt_quiet Examples.cfg Examples.batch_ok
              (mk_loop_state 0 []) 7 (SBool false) (SVal (Num 0)))
    as [Hnone Hkeep]; [discriminate | discriminate |].
  split; [exact Hnone | exact Hkeep].
Defined.

Lemma every_patient_counted_once_witness :
  exists st out,
    label_gen_benchmark Examples.U12 Examples.K12 Examples.rt_quiet
      Examples.cfg Examples.batch_no_endpoint = Ok (st, out)
    /\ (n_skipped_patients st + List.length (all_out_dfs st) = 2)%nat.
Proof.
  eexists. eexists. split; [vm_compute; reflexivity|].
  exact (@every_patient_counted_once Examples.U12 Examples.K12
           Examples.rt_quiet Examples.cfg Examples.batch_no_endpoint _ _
           eq_refl).
Defined.

Lemma endpoint_order_irrelevant_witness :
  process_patient Examples.U12 Examples.K12 Examples.rt_quiet Examples.cfg
    Examples.batch_ok (mk_loop_state 0 []) 7
  = process_patient Examples.U12 Examples.K12 Examples.rt_quiet Examples.cfg
      (mk_Batch (df_static Examples.batch_ok) (df_all_pats Examples.batch_ok)
         (rev (df_all_endpoints Examples.batch_ok)))
      (mk_loop_state 0 []) 7.
Proof.
  apply (@endpoint_order_irrelevant Examples.U12 Examples.K12
           Examples.rt_quiet Examples.cfg Examples.batch_ok
           (rev (df_all_endpoints Examples.batch_ok)) (mk_loop_state 0 []) 7).
  - apply Permutation_rev.
  - repeat constructor; cbn; lia.
Defined.

Lemma kept_tables_well_formed_witness :
  exists st out,
    label_gen_benchmark Examples.U12 Examples.K12 Examples.rt_quiet
      Examples.cfg Examples.batch_ok = Ok (st, out)
    /\ Forall (fun t => map fst t = column_names Examples.K12 Examples.cfg
                        /\ df_nrows t <> 0%nat)
         (all_out_dfs st).
Proof.
  eexists. eexists. split; [vm_compute; reflexivity|].
  exact (@kept_tables_well_formed Examples.U12 Examples.K12
           Examples.rt_quiet Examples.cfg Examples.batch_ok _ _
           column_names_distinct eq_refl).
Defined.

(* ------------------------------------------------------------------ *)
(** ** Properties of the file-system helpers *)

Module FileSystemFacts.

Import FileSystem.

Lemma fs_set_same (s : fs) (p : path) (v : option node) :
  fs_set s p v p = v.
Proof. unfold fs_set. now destruct (path_eq_dec p p). Qed.

Lemma fs_set_other (s : fs) (p q : path) (v : option node) :
  p <> q -> fs_set s p v q = s q.
Proof. intros H. unfold fs_set. now destruct (path_eq_dec p q). Qed.

Lemma cons_neq_tail (c : string) (p : path) : c :: p <> p.
Proof.
  intros E. apply (f_equal (@List.length _)) in E. simpl in E. lia.
Qed.

(** X15.  [delete_if_exist] does nothing on a path that does not exist,
    removes a file and only it, and fails on a directory; after it has
    succeeded the path does not exist and a second call changes
    nothing. *)
Theorem delete_if_exist_spec (s : fs) (p : path) :
  (s p = None -> delete_if_exist s p = Done s)
  /\ (s p = Some Dir -> delete_if_exist s p = Fails IsADirectoryError)
  /\ (s p = Some File ->
      exists s', delete_if_exist s p = Done s'
                 /\ s' p = None
                 /\ forall q, q <> p -> s' q = s q)
  /\ (forall s', delete_if_exist s p = Done s' ->
        exists_ s' p = false /\ delete_if_exist s' p = Done s').
Proof.
  unfold delete_if_exist, exists_, remove.
  split; [|split; [|split]].
  - now intros ->.
  - now intros ->.
  - intros ->. eexists. split; [reflexivity|]. split.
    + apply fs_set_same.
    + intros q Hq. apply fs_set_other. congruence.
  - intros s' Hdel. destruct (s p) as [[|]|] eqn:E.
    + injection Hdel as <-. rewrite fs_set_same. now split.
    + discriminate Hdel.
    + injection Hdel as <-. rewrite E. now split.
Qed.

Lemma delete_if_exist_well_formed (s s' : fs) (p : path) :
  well_formed s -> delete_if_exist s p = Done s' -> well_formed s'.
Proof.
  intros [Hroot Hpar] Hdel. unfold delete_if_exist, exists_, remove in Hdel.
  destruct (s p) as [[|]|] eqn:E; try discriminate;
    injection Hdel as <-; [|now split].
  split.
  - rewrite fs_set_other; [exact Hroot|]. intros ->. congruence.
  - intros c parent Hc. unfold fs_set in *.
    destruct (path_eq_dec p (c :: parent)) as [->|Hne]; [contradiction|].
    destruct (path_eq_dec p parent) as [->|Hne'].
    + apply Hpar in Hc. congruence.
    + now apply Hpar with c.
Qed.

Lemma mkdir_done (s s' : fs) (p : path) :
  mkdir s p = Done s' ->
  s p = None /\ s' = fs_set s p (Some Dir)
  /\ exists c parent, p = c :: parent /\ s parent = Some Dir.
Proof.
  unfold mkdir. destruct (s p) eqn:E; [discriminate|].
  destruct p as [|c parent]; [discriminate|].
  destruct (s parent) as [[|]|] eqn:Ep; try discriminate.
  intros H. injection H as <-. repeat split. now exists c, parent.
Qed.

Lemma mkdir_well_formed (s s' : fs) (p : path) :
  well_formed s -> mkdir s p = Done s' -> well_formed s'.
Proof.
  intros [Hroot Hpar] Hmk.
  destruct (@mkdir_done s s' p Hmk) as [Hp [-> [c [parent [-> Hparent]]]]].
  split.
  - rewrite fs_set_other; [exact Hroot | discriminate].
  - intros c' q Hc'. unfold fs_set in *.
    destruct (path_eq_dec (c :: parent) q) as [<-|Hq].
    + exfalso. destruct (path_eq_dec (c :: parent) (c' :: c :: parent)) as [E|_].
      * symmetry in E. now apply cons_neq_tail in E.
      * apply Hpar in Hc'. congruence.
    + destruct (path_eq_dec (c :: parent) (c' :: q)) as [E|_].
      * injection E as _ <-. exact Hparent.
      * now apply Hpar with c'.
Qed.

Lemma option_eq_dec (s1 s2 : fs) (q : path) :
  {s1 q = s2 q} + {s1 q <> s2 q}.
Proof.
  destruct (s1 q) as [[|]|], (s2 q) as [[|]|];
    try (left; reflexivity); right; discriminate.
Qed.

(** What a successful [makedirs] has done. *)
Lemma makedirs_done (p : path) :
  forall s s', makedirs s p = Done s' ->
  s p = None /\ s' p = Some Dir
  /\ (forall q n, s q = Some n -> s' q = Some n)
  /\ (forall q, s' q <> s q -> above q p /\ s' q = Some Dir)
  /\ (well_formed s -> well_formed s').
Proof.
  assert (Hmk : forall s s' p, mkdir s p = Done s' ->
            s p = None /\ s' p = Some Dir
            /\ (forall q n, s q = Some n -> s' q = Some n)
            /\ (forall q, s' q <> s q -> above q p /\ s' q = Some Dir)
            /\ (well_formed s -> well_formed s')).
  { intros s s' p0 H. pose proof (@mkdir_done s s' p0 H) as [Hp [Hs' _]].
    split; [exact Hp|]. subst s'. split; [apply fs_set_same|]. split; [|split].
    - intros q n Hq. rewrite fs_set_other; [exact Hq | congruence].
    - intros q Hq. unfold fs_set in *.
      destruct (path_eq_dec p0 q) as [<-|]; [|contradiction].
      split; [now exists [] | reflexivity].
    - intros Hwf. exact (@mkdir_well_formed s _ p0 Hwf H). }
  induction p as [|c parent IH]; intros s s' Hrun.
  - now apply Hmk.
  - cbn [makedirs] in Hrun. destruct (exists_ s parent) eqn:Ex.
    + now apply Hmk.
    + destruct (makedirs s parent) as [s1|e] eqn:E1.
      * destruct (IH _ _ E1) as [Hn1 [Hd1 [Hmono1 [Hch1 Hwf1]]]].
        destruct (Hmk _ _ _ Hrun) as [Hn2 [Hd2 [Hmono2 [Hch2 Hwf2]]]].
        assert (Hp : s (c :: parent) = None).
        { destruct (s (c :: parent)) as [n|] eqn:E; [|reflexivity].
          apply Hmono1 in E. congruence. }
        split; [exact Hp|]. split; [exact Hd2|]. split; [|split].
        -- intros q n Hq. now apply Hmono2, Hmono1.
        -- intros q Hq.
           destruct (option_eq_dec s' s1 q) as [E|Hne].
           ++ rewrite E in *. destruct (Hch1 q Hq) as [[pre ->] Hdir].
              split; [now exists (c :: pre) | exact Hdir].
           ++ apply Hch2. exact Hne.
        -- intros Hwf. now apply Hwf2, Hwf1.
      * destruct e; try discriminate. now apply Hmk.
Qed.



(** X16.  What [create_dir_if_not_exist] has done when it returns: the
    path exists; nothing that existed has been removed or replaced; only
    directories on the way to the path have been added; a tree stays a
    tree.  A regular file already at the path is left in place, without
    an error. *)
Theorem create_dir_if_not_exist_effect (s s' : fs) (p : path)
    (recursive : bool) :
  create_dir_if_not_exist s p recursive = Done s' ->
  exists_ s' p = true
  /\ (forall q n, s q = Some n -> s' q = Some n)
  /\ (forall q, s' q <> s q -> above q p /\ s' q = Some Dir)
  /\ (well_formed s -> well_formed s')
  /\ (s p = Some File -> s' p = Some File).
Proof.
  unfold create_dir_if_not_exist, exists_. intros Hrun.
  destruct (s p) as [n|] eqn:Ep; cbn [negb] in Hrun.
  - injection Hrun as <-. rewrite Ep.
    split; [reflexivity|]. split; [auto|]. split; [congruence|].
    split; [auto | auto].
  - assert (Hdone : s' p = Some Dir
                    /\ (forall q n, s q = Some n -> s' q = Some n)
                    /\ (forall q, s' q <> s q -> above q p /\ s' q = Some Dir)
                    /\ (well_formed s -> well_formed s')).
    { destruct recursive.
      - now destruct (@makedirs_done p s s' Hrun) as [_ H].
      - destruct (@mkdir_done s s' p Hrun) as [_ [Hs' _]].
        split; [subst s'; apply fs_set_same|]. split; [|split].
        + intros q n Hq. subst s'. rewrite fs_set_other; [exact Hq|congruence].
        + intros q Hq. subst s'. unfold fs_set in *.
          destruct (path_eq_dec p q) as [<-|]; [|contradiction].
          split; [now exists [] | reflexivity].
        + intros Hwf. exact (@mkdir_well_formed s s' p Hwf Hrun). }
    destruct Hdone as [Hd [Hmono [Hch Hwf]]]. rewrite Hd.
    split; [reflexivity|]. split; [exact Hmono|]. split; [exact Hch|].
    split; [exact Hwf | discriminate].
Qed.


Lemma data_tree_well_formed : well_formed data_tree.
Proof.
  split; [reflexivity|]. intros c parent H. unfold data_tree, fs_set in *.
  destruct (path_eq_dec ["data"%string] (c :: parent)) as [E|_].
  - injection E as _ <-. reflexivity.
  - destruct (path_eq_dec [] (c :: parent)); [discriminate | contradiction].
Qed.

Lemma create_dir_if_not_exist_effect_witness :
  exists s',
    create_dir_if_not_exist data_tree
      ["batch"%string; "labels"%string; "data"%string] true = Done s'
    /\ exists_ s' ["batch"%string; "labels"%string; "data"%string] = true
    /\ well_formed s'.
Proof.
  eexists. split; [reflexivity|].
  match goal with
  | |- exists_ ?s' _ = true /\ _ =>
      destruct (@create_dir_if_not_exist_effect data_tree s'
                  ["batch"%string; "labels"%string; "data"%string] true
                  eq_refl) as [Hex [_ [_ [Hwf _]]]]
  end.
  split; [exact Hex | exact (Hwf data_tree_well_formed)].
Defined.


End FileSystemFacts.

(* ------------------------------------------------------------------ *)
(** ** Alignment errors, dry runs and the written table *)

Section MoreDriverFacts.

Context (U : Utils) (K : Constants).

(** X18.  On non-empty frames with pairwise distinct endpoint timestamps
    a failed alignment check raises [ValueError] when the two frames have
    different numbers of rows and [AssertionError] when they have the
    same number of rows but different timestamps; in both cases the
    endpoint frame has already been re-indexed by timestamp. *)
Theorem gen_label_alignment_errors (rt : Runtime) (configs : Configs)
    (m a : scalar) (pid : Z) (h : heap) :
  pat_rows (df_pat h) <> [] ->
  ep_rows (df_endpoint h) <> [] ->
  ep_indexed (df_endpoint h) = false ->
  NoDup (map e_datetime (ep_rows (df_endpoint h))) ->
  let h' := mk_heap (df_pat h)
              (mk_endpoint_frame (ep_rows (df_endpoint h)) true) in
  (List.length (pat_rows (df_pat h)) <> List.length (ep_rows (df_endpoint h)) ->
   gen_label U K rt configs m a pid h = (Raise ValueError, h'))
  /\ (List.length (pat_rows (df_pat h)) = List.length (ep_rows (df_endpoint h)) ->
      map p_datetime (pat_rows (df_pat h))
      <> map e_datetime (ep_rows (df_endpoint h)) ->
      gen_label U K rt configs m a pid h = (Raise AssertionError, h')).
Proof.
  intros Hp He Hidx Hnd h'. subst h'.
  assert (Hrun : gen_label U K rt configs m a pid h
                 = (rbind (assert_aligned
                             (map p_datetime (pat_rows (df_pat h)))
                             (map e_datetime (ep_rows (df_endpoint h))))
                      (fun _ => assemble U K configs m a (pat_rows (df_pat h))
                                  (ep_rows (df_endpoint h))),
                    mk_heap (df_pat h)
                      (mk_endpoint_frame (ep_rows (df_endpoint h)) true))).
  { rewrite gen_label_run. rewrite (nonempty_test Hp He), Hidx.
    replace (has_dup _) with false
      by (symmetry; now apply has_dup_false_iff).
    reflexivity. }
  rewrite Hrun. unfold assert_aligned. rewrite !length_map. split.
  - intros Hlen.
    replace (_ =? _)%nat with false by (symmetry; now apply Nat.eqb_neq).
    reflexivity.
  - intros Hlen Hne. rewrite Hlen, Nat.eqb_refl. cbn [negb].
    destruct (all_eqb _ _) eqn:E; [|reflexivity].
    apply all_eqb_eq in E. contradiction.
Qed.

(** The steps of a debug run and of a real run agree on the exception or
    on the number of skipped patients. *)
Lemma process_patients_dry_run (rt : Runtime) (configs : Configs)
    (b : Batch) (pids : list Z) :
  forall st st',
  n_skipped_patients st = n_skipped_patients st' ->
  match process_patients U K rt (set_debug configs true) b st pids,
        process_patients U K rt (set_debug configs false) b st' pids with
  | Ok s1, Ok s2 => n_skipped_patients s1 = n_skipped_patients s2
  | Raise e1, Raise e2 => e1 = e2
  | _, _ => False
  end.
Proof.
  induction pids as [|pid pids IH]; intros st st' Hn; [exact Hn|].
  cbn [process_patients].
  assert (Hstep :
    match process_patient U K rt (set_debug configs true) b st pid,
          process_patient U K rt (set_debug configs false) b st' pid with
    | Ok s1, Ok s2 => n_skipped_patients s1 = n_skipped_patients s2
    | Raise e1, Raise e2 => e1 = e2
    | _, _ => False
    end).
  { unfold process_patient.
    change (gen_label U K rt (set_debug configs true))
      with (gen_label U K rt configs).
    change (gen_label U K rt (set_debug configs false))
      with (gen_label U K rt configs).
    cbn [set_debug APACHE_II_map APACHE_IV_map debug_mode].
    destruct (mort_status_of _); cbn [rbind]; [|reflexivity].
    destruct (py_float _); cbn [rbind]; [|reflexivity].
    destruct (py_float _); cbn [rbind]; [|reflexivity].
    destruct (negb (patient_path_exists rt));
      [cbn [skip n_skipped_patients]; congruence|].
    destruct (_ || _).
    - destruct (logging_info_flush rt); cbn [rbind];
        [cbn [skip n_skipped_patients]; congruence | reflexivity].
    - destruct (fst (gen_label _ _ _ _ _ _ _ _)) as [[t|]|e]; cbn [rbind];
        [|cbn [skip n_skipped_patients]; congruence | reflexivity].
      destruct (negb _); [reflexivity | exact Hn]. }
  destruct (process_patient U K rt (set_debug configs true) b st pid),
           (process_patient U K rt (set_debug configs false) b st' pid);
    cbn [rbind]; try contradiction; [now apply IH | exact Hstep].
Qed.

(** X19.  The loop over the patients in debug mode is a dry run of the
    loop of a real run: from the same accumulators both raise the same
    exception or both end, with the same number of skipped patients, and
    the debug loop keeps no table. *)
Theorem debug_loop_is_dry_run (rt : Runtime) (configs : Configs)
    (b : Batch) (st : loop_state) (pids : list Z) :
  match process_patients U K rt (set_debug configs true) b st pids,
        process_patients U K rt (set_debug configs false) b st pids with
  | Ok s1, Ok s2 =>
      n_skipped_patients s1 = n_skipped_patients s2
      /\ all_out_dfs s1 = all_out_dfs st
  | Raise e1, Raise e2 => e1 = e2
  | _, _ => False
  end.
Proof.
  pose proof (@process_patients_dry_run rt configs b pids st st eq_refl)
    as Hsim.
  destruct (process_patients U K rt (set_debug configs true) b st pids)
    as [s1|e1] eqn:E1,
    (process_patients U K rt (set_debug configs false) b st pids)
    as [s2|e2]; try exact Hsim.
  split; [exact Hsim|].
  apply (@process_patients_count U K) in E1.
  cbn [set_debug debug_mode] in E1. now destruct E1.
Qed.

(** The number of rows of a concatenation. *)
Lemma df_append_rows (names : list string) (t1 t2 : DataFrame) :
  names <> [] -> map fst t1 = names -> map fst t2 = names ->
  map fst (df_append t1 t2) = names
  /\ df_nrows (df_append t1 t2) = (df_nrows t1 + df_nrows t2)%nat.
Proof.
  intros Hne H1 H2. split.
  - rewrite <- H1. unfold df_append. rewrite map_map. apply map_ext.
    intros [k c]. cbn [fst]. now destruct (df_lookup k t2).
  - destruct t1 as [|[k1 c1] t1]; [simpl in H1; congruence|].
    destruct t2 as [|[k2 c2] t2]; [simpl in H2; congruence|].
    assert (Hk : k2 = k1) by (simpl in H1, H2; congruence). subst k2.
    cbn [df_append map fst snd df_lookup df_nrows].
    rewrite String.eqb_refl. cbn [df_nrows].
    destruct c1, c2; cbn [col_app col_len];
      now rewrite ?length_app, ?length_map.
Qed.

Lemma pd_concat_rows (names : list string) (t : DataFrame)
    (ts : list DataFrame) :
  names <> [] -> map fst t = names ->
  Forall (fun t' => map fst t' = names) ts ->
  map fst (fold_left df_append ts t) = names
  /\ df_nrows (fold_left df_append ts t)
     = (df_nrows t + list_sum (map df_nrows ts))%nat.
Proof.
  intros Hne. revert t. induction ts as [|t' ts IH]; intros t Ht Hts.
  - simpl. split; [exact Ht | lia].
  - inversion_clear Hts as [|? ? Ht' Hts'].
    destruct (@df_append_rows names t t' Hne Ht Ht') as [Hn Hr].
    cbn [fold_left]. destruct (IH _ Hn Hts') as [Hn' Hr'].
    split; [exact Hn'|]. rewrite Hr', Hr. simpl. lia.
Qed.

(** X20.  The table written for a batch has the ten columns of the
    output and as many rows as the kept tables have together. *)
Theorem written_table_rows (rt : Runtime) (configs : Configs) (b : Batch)
    (st : loop_state) (out : DataFrame) :
  NoDup (column_names K configs) ->
  label_gen_benchmark U K rt configs b = Ok (st, Some out) ->
  map fst out = column_names K configs
  /\ df_nrows out = list_sum (map df_nrows (all_out_dfs st)).
Proof.
  intros Hnd Hrun.
  pose proof (@kept_tables_well_formed_facts U K rt configs b st (Some out)
                Hnd Hrun) as Hkept.
  unfold label_gen_benchmark in Hrun.
  destruct (process_patients U K rt configs b _ _) as [st1|e];
    cbn [rbind] in Hrun; [|discriminate].
  destruct (debug_mode configs); [discriminate|].
  destruct (pd_concat (all_out_dfs st1)) as [t|e] eqn:Ec;
    cbn [rbind] in Hrun; [|discriminate].
  injection Hrun as <- <-.
  destruct (all_out_dfs st1) as [|t1 ts]; [discriminate|].
  cbn [pd_concat] in Ec. injection Ec as <-.
  inversion_clear Hkept as [|? ? [Ht1 _] Hts].
  destruct (@pd_concat_rows (column_names K configs) t1 ts) as [Hn Hr].
  - discriminate.
  - exact Ht1.
  - eapply Forall_impl; [|exact Hts]. now intros t' [H _].
  - split; [exact Hn|]. rewrite Hr. reflexivity.
Qed.

End MoreDriverFacts.

Lemma gen_label_alignment_errors_witness :
  gen_label Examples.U12 Examples.K12 Examples.rt_quiet Examples.cfg
    (SBool true) (SVal NaN) 7
    (mk_heap (mk_pat_frame (Examples.pat_of 7 3))
       (mk_endpoint_frame (Examples.shifted_endpoint 7 3) false))
  = (Raise AssertionError,
     mk_heap (mk_pat_frame (Examples.pat_of 7 3))
       (mk_endpoint_frame (Examples.shifted_endpoint 7 3) true)).
Proof.
  destruct (@gen_label_alignment_errors Examples.U12 Examples.K12
              Examples.rt_quiet Examples.cfg (SBool true) (SVal NaN) 7
              (mk_heap (mk_pat_frame (Examples.pat_of 7 3))
                 (mk_endpoint_frame (Examples.shifted_endpoint 7 3) false)))
    as [_ Hassert].
  - intros E. discriminate E.
  - intros E. discriminate E.
  - reflexivity.
  - apply has_dup_false_iff. reflexivity.
  - apply Hassert; [reflexivity | intros E; discriminate E].
Defined.

Lemma written_table_rows_witness :
  exists st out,
    label_gen_benchmark Examples.U12 Examples.K12 Examples.rt_quiet
      Examples.cfg Examples.batch_ok = Ok (st, Some out)
    /\ df_nrows out = 6%nat.
Proof.
  eexists. eexists. split; [vm_compute; reflexivity|].
  exact (proj2 (@written_table_rows Examples.U12 Examples.K12
                  Examples.rt_quiet Examples.cfg Examples.batch_ok _ _
                  column_names_distinct eq_refl)).
Defined.

(* ------------------------------------------------------------------ *)
(** ** The endpoint rows that reach [gen_label] *)

Section EndpointOrder.

Context (U : Utils) (K : Constants).


End EndpointOrder.



(* ------------------------------------------------------------------ *)
(** * Effect of [gen_label] on the two frames *)

(** C9 (as amended).  [gen_label] leaves the imputed frame as it is and
    never changes the rows of the endpoint frame, but it is not read-only
    on the endpoint frame.  Exactly when both frames are non-empty, the
    endpoint frame still has its timestamp column and the endpoint
    timestamps are pairwise distinct, the call leaves the endpoint frame
    re-indexed by timestamp, whatever it returns or raises afterwards: in
    particular when the alignment check then fails.  In every other case,
    and whenever "no label" is returned, the two frames are left as they
    were. *)
Theorem gen_label_frame_effect (U : Utils) (K : Constants) (rt : Runtime)
    (configs : Configs) (m a : scalar) (pid : Z) (h : heap) :
  let r := fst (gen_label U K rt configs m a pid h) in
  let h' := snd (gen_label U K rt configs m a pid h) in
  let pat := pat_rows (df_pat h) in
  let ep := ep_rows (df_endpoint h) in
  let reindexed := mk_heap (df_pat h) (mk_endpoint_frame ep true) in
  let touched :=
    pat <> [] /\ ep <> [] /\ ep_indexed (df_endpoint h) = false
    /\ NoDup (map e_datetime ep) in
  df_pat h' = df_pat h
  /\ ep_rows (df_endpoint h') = ep
  /\ (touched -> h' = reindexed /\ h' <> h)
  /\ (~ touched -> h' = h)
  /\ (touched -> map p_datetime pat <> map e_datetime ep ->
      (r = Raise ValueError \/ r = Raise AssertionError) /\ h' = reindexed)
  /\ (r = Ok None -> h' = h)
  /\ (forall t, r = Ok (Some t) -> h' = reindexed).
Proof.
  intros r h' pat ep reindexed touched.
  assert (Hne : reindexed = h -> ep_indexed (df_endpoint h) = true).
  { intros E. rewrite <- E. reflexivity. }
  subst r h'. rewrite gen_label_run. fold pat ep.
  destruct ((List.length pat =? 0)%nat || (List.length ep =? 0)%nat) eqn:Ee.
  { apply empty_test in Ee. cbn [fst snd].
    assert (Hnt : ~ touched) by (intros [Hp [He _]]; tauto).
    split; [reflexivity|]. split; [reflexivity|].
    split; [intros Ht; contradiction|].
    split; [reflexivity|].
    split; [intros Ht; contradiction|].
    split; [reflexivity|].
    intros t Ht. destruct (logging_info_flush rt); discriminate. }
  destruct (ep_indexed (df_endpoint h)) eqn:Eidx.
  { cbn [fst snd].
    assert (Hnt : ~ touched) by (intros [_ [_ [Hi _]]]; discriminate).
    split; [reflexivity|]. split; [reflexivity|].
    split; [intros Ht; contradiction|].
    split; [reflexivity|].
    split; [intros Ht; contradiction|].
    split; [reflexivity|].
    intros t Ht; discriminate. }
  destruct (has_dup (map e_datetime ep)) eqn:Edup.
  { cbn [fst snd].
    assert (Hnt : ~ touched).
    { intros [_ [_ [_ Hnd]]]. apply has_dup_false_iff in Hnd. congruence. }
    split; [reflexivity|]. split; [reflexivity|].
    split; [intros Ht; contradiction|].
    split; [reflexivity|].
    split; [intros Ht; contradiction|].
    split; [reflexivity|].
    intros t Ht; discriminate. }
  assert (Ht : touched).
  { apply orb_false_iff in Ee. destruct Ee as [Ep Ee].
    split; [intros E; rewrite E in Ep; discriminate|].
    split; [intros E; rewrite E in Ee; discriminate|].
    split; [reflexivity | now apply has_dup_false_iff]. }
  cbn [fst snd df_pat df_endpoint ep_rows ep_indexed].
  split; [reflexivity|]. split; [reflexivity|].
  split; [intros _; split; [reflexivity | intros E; apply Hne in E; discriminate]|].
  split; [intros Hnt; contradiction|].
  split.
  { intros _ Hmis. split; [|reflexivity].
    destruct (assert_aligned_raises Hmis) as [E | E]; rewrite E;
      [now left | now right]. }
  split; [|reflexivity].
  intros Hr.
  destruct (assert_aligned _ _) as [[]|e]; [|discriminate].
  cbn [rbind] in Hr. now apply (@assemble_not_none U K) in Hr.
Qed.

(* ------------------------------------------------------------------ *)
(** ** The mortality outcome of a patient *)

Lemma mort_status_of_true_iff (lookup : result pyval) (mb : bool) :
  mort_status_of lookup = Ok mb ->
  (mb = true <-> exists v, lookup = Ok v /\ py_str v = "dead"%string)
  /\ (lookup = Raise ValueError \/ lookup = Raise TypeError -> mb = false).
Proof.
  intros H. destruct lookup as [v | e]; cbn in H.
  - injection H as <-. split.
    + split.
      * intros E. exists v. split; [reflexivity | now apply String.eqb_eq].
      * intros [v' [Ev Hv]]. injection Ev as <-. now apply String.eqb_eq.
    + intros [E | E]; discriminate E.
  - destruct e; try discriminate H; injection H as <-;
      (split; [split; [discriminate | intros [v [E _]]; discriminate E]
              | reflexivity]).
Qed.

Lemma static_of_first (l pre post : list static_row) (r : static_row)
    (pid : Z) :
  l = pre ++ r :: post -> s_pid r = pid ->
  Forall (fun r' => s_pid r' <> pid) pre ->
  exists rest, static_of l pid = r :: rest.
Proof.
  intros -> Hr Hpre. unfold static_of. rewrite filter_app.
  replace (filter (fun r0 => Z.eqb (s_pid r0) pid) pre) with (@nil static_row).
  - cbn. replace (Z.eqb (s_pid r) pid) with true
      by (symmetry; now apply Z.eqb_eq).
    eexists. reflexivity.
  - symmetry. induction Hpre as [|x pre Hx _ IH]; [reflexivity|].
    cbn. replace (Z.eqb (s_pid x) pid) with false
      by (symmetry; now apply Z.eqb_neq).
    exact IH.
Qed.

Section MortalityOutcome.

Context (U : Utils) (K : Constants).

(** C10.  The mortality outcome the batch driver hands to [gen_label], and
    [gen_label] to the horizon-gated labeler of the mortality column, is
    true exactly when the discharge status of the patient's first static
    record, as a string, is ["dead"]; any other value gives false, and so
    does a lookup that raises [ValueError] or [TypeError].  Whenever the
    loop body does not skip the patient, the mortality column of the
    table it obtained is the masked horizon-gated array of that
    outcome. *)
Theorem mort_status_true_iff_dead (rt : Runtime) (configs : Configs)
    (b : Batch) (st : loop_state) (pid : Z) :
  NoDup (column_names K configs) ->
  let pat := filter (fun r => Z.eqb (p_pid r) pid) (df_all_pats b) in
  let h :=
    mk_heap (mk_pat_frame pat)
      (mk_endpoint_frame
         (prepare_endpoint
            (filter (fun r => Z.eqb (e_pid r) pid) (df_all_endpoints b)))
         false) in
  process_patient U K rt configs b st pid
  = process_patient_given U K rt configs b st pid
      (mort_lookup (df_static b) pid)
  /\ (forall pre r post,
        df_static b = pre ++ r :: post -> s_pid r = pid ->
        Forall (fun r' => s_pid r' <> pid) pre ->
        mort_lookup (df_static b) pid = Ok (s_discharge r))
  /\ forall lookup st',
       process_patient_given U K rt configs b st pid lookup = Ok st' ->
       st' = skip st
       \/ exists (mb : bool) (a : scalar) (t : DataFrame),
            fst (gen_label U K rt configs (SBool mb) a pid h) = Ok (Some t)
            /\ st' = (if debug_mode configs then st
                      else mk_loop_state (n_skipped_patients st)
                             (all_out_dfs st ++ [t]))
            /\ masked_column U t (MORTALITY_NAME K)
                 (unique_label_at_hours U (List.length pat) (SBool mb) 24)
                 (get_hr_status U (map p_hr_cum pat))
            /\ (mb = true
                <-> exists v, lookup = Ok v /\ py_str v = "dead"%string)
            /\ (lookup = Raise ValueError \/ lookup = Raise TypeError ->
                mb = false).
Proof.
  intros Hnd pat h.
  split; [reflexivity|]. split.
  - intros pre r post Hb Hr Hpre. unfold mort_lookup.
    destruct (@static_of_first _ _ _ _ _ Hb Hr Hpre) as [rest ->]. reflexivity.
  - intros lookup st' Hrun. unfold process_patient_given in Hrun.
    destruct (mort_status_of lookup) as [mb | e] eqn:Em; [|discriminate].
    cbn [rbind] in Hrun.
    destruct (py_float (map s_apache2 _)) as [v2 | e]; [|discriminate].
    destruct (py_float (map s_apache4 _)) as [v4 | e]; [|discriminate].
    cbn [rbind] in Hrun.
    destruct (negb (patient_path_exists rt));
      [injection Hrun as <-; now left|].
    fold pat in Hrun.
    destruct ((List.length pat =? 0)%nat || _).
    { destruct (logging_info_flush rt); [|discriminate].
      injection Hrun as <-. now left. }
    fold h in Hrun.
    destruct (fst (gen_label U K rt configs (SBool mb) _ pid h))
      as [[t|]|e] eqn:Eg; cbn [rbind keep_label] in Hrun;
      [| injection Hrun as <-; now left | discriminate].
    destruct (negb (df_nrows t =? List.length pat)%nat); [discriminate|].
    right. eexists mb, _, t. split; [exact Eg|].
    split; [destruct (debug_mode configs); now injection Hrun|].
    split.
    + destruct (@gen_label_channels U K rt configs _ _ pid h t Hnd Eg)
        as [_ [_ Hch]].
      cbn [df_pat pat_rows h] in Hch.
      destruct (Hch (MORTALITY_NAME K)
                  (unique_label_at_hours U (List.length (map p_rel pat))
                     (SBool mb) 24)) as [out [Hl [Hc _]]]; [now left|].
      rewrite length_map in Hc. exists out. split; assumption.
    + now apply mort_status_of_true_iff.
Qed.

End MortalityOutcome.

Lemma mort_status_true_iff_dead_witness :
  mort_lookup (df_static Examples.batch_ok) 8 = Ok (PStr "dead")
  /\ exists st' t,
       process_patient Examples.U12 Examples.K12 Examples.rt_quiet
         Examples.cfg Examples.batch_ok (mk_loop_state 0 []) 8 = Ok st'
       /\ all_out_dfs st' = [t]
       /\ masked_column Examples.U12 t (MORTALITY_NAME Examples.K12)
            (unique_label_at_hours Examples.U12 3 (SBool true) 24)
            (get_hr_status Examples.U12 (map p_hr_cum (Examples.pat_of 8 3))).
Proof.
  destruct (@mort_status_true_iff_dead Examples.U12 Examples.K12
              Examples.rt_quiet Examples.cfg Examples.batch_ok
              (mk_loop_state 0 []) 8 column_names_distinct)
    as [Hdef [Hfirst Hout]].
  assert (Hlook : mort_lookup (df_static Examples.batch_ok) 8
                  = Ok (PStr "dead")).
  { apply (Hfirst [Examples.static_alive 7] (Examples.static_dead 8) []);
      [reflexivity | reflexivity |].
    constructor; [cbn; lia | constructor]. }
  split; [exact Hlook|].
  assert (Hrun : exists st',
             process_patient Examples.U12 Examples.K12 Examples.rt_quiet
               Examples.cfg Examples.batch_ok (mk_loop_state 0 []) 8 = Ok st'
             /\ n_skipped_patients st' = 0%nat).
  { eexists. split; [vm_compute; reflexivity | reflexivity]. }
  destruct Hrun as [st' [Erun Hkept]].
  assert (Erun' := Erun).
  rewrite Hdef in Erun'.
  destruct (Hout _ _ Erun') as [Hskip | [mb [a [t [_ [Hst [Hcol [Hiff _]]]]]]]].
  - rewrite Hskip in Hkept. discriminate Hkept.
  - exists st', t. split; [exact Erun|].
    split; [rewrite Hst; reflexivity|].
    assert (Hmb : mb = true).
    { apply Hiff. exists (PStr "dead"). split; [exact Hlook | reflexivity]. }
    rewrite Hmb in Hcol. exact Hcol.
Defined.
